(** * Register access through /dev/mem: the two axi3test programs

    A shallow embedding of [software/axi3test/axi3_h2f_lw.c] and
    [software/axi3test/gpigpo.c].  Both programs open [/dev/mem], map one
    physical window with [mmap], compute register pointers by pointer
    arithmetic on the mapped base, and then poll the registers forever.

    The C code is modelled as a state-passing program over a [world]: the
    process's descriptor table, its live mappings, the physical bytes behind
    them (a store that echoes what is written) and the log of system calls
    and register accesses, newest first. *)

From Stdlib Require Import ZArith List Lia Bool.
From stdpp Require Import gmap strings list.

Local Open Scope Z_scope.

(** ** The world the programs run in *)

Inductive open_flag := O_RDWR | O_SYNC.
Inductive prot_flag := PROT_READ | PROT_WRITE.
Inductive map_flag := MAP_SHARED.

(** One entry per call that leaves the process, newest first in [log]. *)
Inductive event :=
| EvOpen (path : string) (flags : list open_flag) (ret : Z)
| EvMmap (addr len : Z) (prot : list prot_flag) (flags : list map_flag)
         (fd off ret : Z)
| EvMunmap (addr len : Z)
| EvClose (fd : Z)
| EvStore (addr val : Z)
| EvLoad (addr val : Z)
| EvPrintf (fmt : string) (args : list Z)
| EvFflush
| EvUsleep (usec : Z).

(** A live mapping: [vm_len] bytes at virtual address [vm_start] show the
    physical bytes starting at [vm_phys]; [vm_fd] is the descriptor that
    was mapped. *)
Record vma := Vma { vm_start : Z; vm_len : Z; vm_fd : Z; vm_phys : Z }.

(** [open_answers] and [mmap_answers] are what the platform will answer to
    the next calls of [open] and [mmap]: [None] is a failure, [Some n] the
    descriptor, respectively the address, that the call returns.  An
    exhausted list answers with a failure. *)
Record world := World {
  open_answers : list (option N);
  mmap_answers : list (option N);
  fds : list Z;
  vmas : list vma;
  phys : gmap Z Z;
  log : list event
}.

Definition record (e : event) (w : world) : world :=
  World (open_answers w) (mmap_answers w) (fds w) (vmas w) (phys w)
        (e :: log w).

(** ** Programs: state passing with [return] from [main], faults, and
    fuel for [while(true)] *)

Inductive outcome (A : Type) :=
| Next (a : A)        (* control goes on with value [a] *)
| Exit (code : Z)     (* [main] returned [code] *)
| Fault               (* an access to an unmapped address *)
| Running.            (* the fuel ran out inside a loop *)
Arguments Next {A} a.
Arguments Exit {A} code.
Arguments Fault {A}.
Arguments Running {A}.

Definition prog (A : Type) : Type := world -> world * outcome A.

Definition ret {A} (a : A) : prog A := fun w => (w, Next a).

Definition bind {A B} (c : prog A) (k : A -> prog B) : prog B :=
  fun w =>
    match c w with
    | (w', Next a) => k a w'
    | (w', Exit code) => (w', Exit code)
    | (w', Fault) => (w', Fault)
    | (w', Running) => (w', Running)
    end.

Definition exit {A} (code : Z) : prog A := fun w => (w, Exit code).

Notation "'let*' x ':=' c 'in' k" := (bind c (fun x => k))
  (at level 10, x name, c at level 100, k at level 200).
Notation "c ';;;' k" := (bind c (fun _ => k))
  (at level 100, k at level 200, right associativity).

(** [while(true) body], run for at most [fuel] iterations.  The loop has
    no exit of its own: it stops only when the body leaves [main] or
    faults, or when the fuel is spent. *)
Fixpoint while_true {S : Type} (fuel : nat) (body : S -> prog S) (s : S)
  : prog S :=
  match fuel with
  | O => fun w => (w, Running)
  | S n => let* s' := body s in while_true n body s'
  end.

(** ** System calls *)

Definition MAP_FAILED : Z := -1.

Definition answer (l : list (option N)) : option N * list (option N) :=
  match l with
  | [] => (None, [])
  | a :: l' => (a, l')
  end.

Fixpoint remove_first {A} (eqb : A -> bool) (l : list A) : list A :=
  match l with
  | [] => []
  | x :: l' => if eqb x then l' else x :: remove_first eqb l'
  end.

Definition sys_open (path : string) (flags : list open_flag) : prog Z :=
  fun w =>
    let (a, rest) := answer (open_answers w) in
    match a with
    | None =>
        (World rest (mmap_answers w) (fds w) (vmas w) (phys w)
               (EvOpen path flags (-1) :: log w), Next (-1))
    | Some n =>
        let fd := Z.of_N n in
        (World rest (mmap_answers w) (fd :: fds w) (vmas w) (phys w)
               (EvOpen path flags fd :: log w), Next fd)
    end.

Definition NULL : Z := 0.

(** [mmap] is only ever asked to choose the address itself ([addr] is
    [NULL]); the platform's answer is the address.  The answer is taken
    as it comes: that a kernel refuses a file offset off a page boundary,
    answers with page-aligned addresses only and maps whole pages is not
    modelled, and the mapping recorded has the length asked for.  The
    sample worlds below use page-aligned offsets and addresses. *)
Definition sys_mmap (addr len : Z) (prot : list prot_flag)
    (flags : list map_flag) (fd off : Z) : prog Z :=
  fun w =>
    let (a, rest) := answer (mmap_answers w) in
    match a with
    | None =>
        (World (open_answers w) rest (fds w) (vmas w) (phys w)
               (EvMmap addr len prot flags fd off MAP_FAILED :: log w),
         Next MAP_FAILED)
    | Some n =>
        let p := Z.of_N n in
        (World (open_answers w) rest (fds w)
               (Vma p len fd off :: vmas w) (phys w)
               (EvMmap addr len prot flags fd off p :: log w), Next p)
    end.

Definition sys_munmap (addr len : Z) : prog Z :=
  fun w =>
    (World (open_answers w) (mmap_answers w) (fds w)
           (remove_first
              (fun v => (vm_start v =? addr) && (vm_len v =? len))
              (vmas w))
           (phys w) (EvMunmap addr len :: log w), Next 0).

Definition sys_close (fd : Z) : prog Z :=
  fun w =>
    (World (open_answers w) (mmap_answers w)
           (remove_first (Z.eqb fd) (fds w)) (vmas w) (phys w)
           (EvClose fd :: log w), Next 0).

Definition printf (fmt : string) (args : list Z) : prog unit :=
  fun w => (record (EvPrintf fmt args) w, Next tt).

Definition fflush_stdout : prog unit :=
  fun w => (record EvFflush w, Next tt).

Definition usleep (usec : Z) : prog unit :=
  fun w => (record (EvUsleep usec) w, Next tt).

(** ** Memory accesses through a pointer *)

(** The physical address behind virtual address [a]: the first live
    mapping that contains [a] decides. *)
Fixpoint translate (vs : list vma) (a : Z) : option Z :=
  match vs with
  | [] => None
  | v :: vs' =>
      if (vm_start v <=? a) && (a <? vm_start v + vm_len v)
      then Some (vm_phys v + (a - vm_start v))
      else translate vs' a
  end.

Definition translate4 (vs : list vma) (a : Z) : option (Z * Z * Z * Z) :=
  match translate vs a, translate vs (a + 1),
        translate vs (a + 2), translate vs (a + 3) with
  | Some p0, Some p1, Some p2, Some p3 => Some (p0, p1, p2, p3)
  | _, _, _, _ => None
  end.

Definition u32 (z : Z) : Z := z mod 2 ^ 32.

Definition byte_of (v : Z) (k : Z) : Z := Z.land (Z.shiftr v (8 * k)) 255.

(** One physical byte; a location never written reads as 0. *)
Definition peek (m : gmap Z Z) (p : Z) : Z :=
  Z.land (default 0 (m !! p)) 255.

(** Little-endian 4-byte store and load on the physical bytes. *)
Definition store_bytes (m : gmap Z Z) (ps : Z * Z * Z * Z) (v : Z)
  : gmap Z Z :=
  let '(p0, p1, p2, p3) := ps in
  <[p3 := byte_of v 3]>
    (<[p2 := byte_of v 2]> (<[p1 := byte_of v 1]> (<[p0 := byte_of v 0]> m))).

Definition load_bytes (m : gmap Z Z) (ps : Z * Z * Z * Z) : Z :=
  let '(p0, p1, p2, p3) := ps in
  Z.lor (peek m p0)
    (Z.lor (Z.shiftl (peek m p1) 8)
       (Z.lor (Z.shiftl (peek m p2) 16) (Z.shiftl (peek m p3) 24))).

(** [ptr + offset] on a [void *]: plain byte arithmetic, no check.
    Addresses are integers here.  The machine computes modulo its pointer
    width, which gives the same address whenever [base + offset] is an
    address of the machine, as every address inside a mapping is; nothing
    below is said about a sum that leaves the address space. *)
Definition register_pointer (base offset : Z) : Z := base + offset.

(** The store [* (uint32_t * ) ptr = v]. *)
Definition write32 (ptr v : Z) : prog unit :=
  fun w =>
    match translate4 (vmas w) ptr with
    | None => (w, Fault)
    | Some ps =>
        (World (open_answers w) (mmap_answers w) (fds w) (vmas w)
               (store_bytes (phys w) ps v) (EvStore ptr v :: log w),
         Next tt)
    end.

(** The load [* (uint32_t * ) ptr]. *)
Definition read32 (ptr : Z) : prog Z :=
  fun w =>
    match translate4 (vmas w) ptr with
    | None => (w, Fault)
    | Some ps =>
        let v := load_bytes (phys w) ps in
        (record (EvLoad ptr v) w, Next v)
    end.

(** ** The code shared by the two programs *)

Definition nl : string := String (Ascii.ascii_of_nat 10) EmptyString.
Definition cr : string := String (Ascii.ascii_of_nat 13) EmptyString.

(** Opening [/dev/mem] and mapping the window
    (axi3_h2f_lw.c lines 16-29, gpigpo.c lines 21-34), with the size and
    the physical base of the window as parameters.  The result is the
    descriptor and the mapped base. *)
Definition map_window (size base : Z) : prog (Z * Z) :=
  let* fd := sys_open "/dev/mem" [O_RDWR; O_SYNC] in
  if fd =? -1 then
    printf ("Error opening /dev/mem" ++ nl) [] ;;;
    exit 1
  else
    let* p := sys_mmap NULL size [PROT_READ; PROT_WRITE] [MAP_SHARED] fd
               base in
    if p =? MAP_FAILED then
      printf ("Error performing mmap" ++ nl) [] ;;;
      sys_close fd ;;;
      exit 1
    else ret (fd, p).

(** Releasing the window
    (axi3_h2f_lw.c lines 61-62, gpigpo.c lines 61-62); the results of
    [munmap] and [close] are not looked at. *)
Definition unmap_window (p size fd : Z) : prog unit :=
  sys_munmap p size ;;;
  sys_close fd ;;;
  ret tt.

(** [if(leds++ == 0xFF) { leds = 0; }] on a [uint32_t]. *)
Definition next_leds (leds : Z) : Z :=
  let test := leds =? 0xFF in
  let leds := u32 (leds + 1) in
  if test then 0 else leds.

(** ** axi3_h2f_lw.c *)

Module Axi3.

Definition H2F_LW_BASE : Z := 0xFF200000.
Definition H2F_LW_SIZE : Z := 0x00200000.

(** The body of [while(true)], lines 42-58.  Each dereference in the
    source is one access here, in source order.  The pointers are not
    volatile, so a compiler may load less often or earlier than written:
    what is proved of this program rests on its stores, its calls and the
    addresses it accesses, not on the number or the place of its loads. *)
Definition body (reg0 reg1 reg2 reg3 : Z) (leds : Z) : prog Z :=
  let leds := next_leds leds in
  write32 reg0 leds ;;;
  let* r0 := read32 reg0 in
  let* r1 := read32 reg1 in
  let* r2 := read32 reg2 in
  let* r3 := read32 reg3 in
  printf cr [] ;;;
  printf "0x%08X | " [r0] ;;;
  printf "0x%08X | " [r1] ;;;
  printf "0x%08X | " [r2] ;;;
  printf "0x%08X" [r3] ;;;
  fflush_stdout ;;;
  usleep 10000 ;;;
  ret leds.

Definition main (fuel : nat) : prog unit :=
  let* m := map_window H2F_LW_SIZE H2F_LW_BASE in
  let fd := fst m in
  let h2f_lw := snd m in
  let reg0 := register_pointer h2f_lw 0 in
  let reg1 := register_pointer h2f_lw 4 in
  let reg2 := register_pointer h2f_lw 8 in
  let reg3 := register_pointer h2f_lw 12 in
  let leds := 0 in
  printf ("Reg0       | Reg1       | Reg2       | Reg3" ++ nl) [] ;;;
  while_true fuel (body reg0 reg1 reg2 reg3) leds ;;;
  unmap_window h2f_lw H2F_LW_SIZE fd ;;;
  exit 0.

End Axi3.

(** ** gpigpo.c *)

Module GpiGpo.

Definition FPGA_MANAGER_BASE : Z := 0xFF706000.
Definition FPGA_MANAGER_SIZE : Z := 0x1C.

Definition FPGA_MANAGER_STAT : Z := 0x00.
Definition FPGA_MANAGER_CTRL : Z := 0x04.
Definition FPGA_MANAGER_GPO : Z := 0x10.
Definition FPGA_MANAGER_GPI : Z := 0x14.

(** The body of [while(true)], lines 47-58. *)
Definition body (status control gpo gpi : Z) (leds : Z) : prog Z :=
  let leds := next_leds leds in
  write32 gpo leds ;;;
  printf cr [] ;;;
  let* s := read32 status in
  printf "0x%08X | " [s] ;;;
  let* c := read32 control in
  printf "0x%08X | " [c] ;;;
  let* i := read32 gpi in
  printf "0x%08X | " [i] ;;;
  let* o := read32 gpo in
  printf "0x%08X" [o] ;;;
  fflush_stdout ;;;
  usleep 100000 ;;;
  ret leds.

Definition main (fuel : nat) : prog unit :=
  let* m := map_window FPGA_MANAGER_SIZE FPGA_MANAGER_BASE in
  let fd := fst m in
  let fpga_manager := snd m in
  let status := register_pointer fpga_manager FPGA_MANAGER_STAT in
  let control := register_pointer fpga_manager FPGA_MANAGER_CTRL in
  let gpo := register_pointer fpga_manager FPGA_MANAGER_GPO in
  let gpi := register_pointer fpga_manager FPGA_MANAGER_GPI in
  let leds := 0 in
  printf ("Status     | Control    | GPI        | GPO" ++ nl) [] ;;;
  while_true fuel (body status control gpo gpi) leds ;;;
  unmap_window fpga_manager FPGA_MANAGER_SIZE fd ;;;
  exit 0.

End GpiGpo.


(** ** Windows, and what the log and the messages say *)

Definition vma_eqb (u v : vma) : bool :=
  (vm_start u =? vm_start v) && (vm_len u =? vm_len v) &&
  (vm_fd u =? vm_fd v) && (vm_phys u =? vm_phys v).

Definition overlaps (u v : vma) : bool :=
  (vm_start u <? vm_start v + vm_len v) &&
  (vm_start v <? vm_start u + vm_len u).

(** [v] is a live mapping of [vs] and no mapping before it in [vs] covers
    any of its virtual addresses. *)
Fixpoint visible (vs : list vma) (v : vma) : bool :=
  match vs with
  | [] => false
  | u :: vs' =>
      if vma_eqb u v then true else negb (overlaps u v) && visible vs' v
  end.

(** The window that a successful [map_window] hands to the program: the
    mapping that [mmap] created for descriptor [fd] at address [p]. *)
Definition window (fd p size base : Z) : vma := Vma p size fd base.

Definition in_bounds (size offset : Z) : Prop :=
  0 <= offset /\ offset + 4 <= size.

(** The two states a window may be seen in.  Mapped: the descriptor is
    open, the base is a real address, the mapping is live and not hidden,
    and it has bytes.  Released: the process holds exactly the
    descriptors and mappings it held in [w0], before the window was
    asked for. *)
Definition fully_mapped (w : world) (fd p size base : Z) : Prop :=
  In fd (fds w) /\ p <> MAP_FAILED /\
  visible (vmas w) (window fd p size base) = true /\ 0 < size.

Definition nothing_held (w0 w : world) : Prop :=
  fds w = fds w0 /\ vmas w = vmas w0.

(** Sample platforms: [/dev/mem] may not be opened; it opens as
    descriptor 3 but [mmap] fails; both succeed and the window lands at
    address 0x10000. *)
Definition w_denied : world := World [None] [Some 65536%N] [0; 1; 2] [] ∅ [].
Definition w_nomap : world := World [Some 3%N] [None] [0; 1; 2] [] ∅ [].
Definition w_ok : world := World [Some 3%N] [Some 65536%N] [0; 1; 2] [] ∅ [].

(** Worlds with two windows.  In [w_pages] the first page of the bridge
    and the page of the FPGA manager are mapped, 4096 bytes each, one
    right behind the other in the address space, at 0x10000 and 0x11000.
    In [w_both] the two windows of the programs are mapped side by side
    with the lengths the programs ask for. *)
Definition w_pages : world :=
  fst (map_window 4096 GpiGpo.FPGA_MANAGER_BASE
         (fst (map_window 4096 Axi3.H2F_LW_BASE
                 (World [Some 3%N; Some 4%N] [Some 65536%N; Some 69632%N]
                        [0; 1; 2] [] ∅ [])))).

Definition w_both : world :=
  fst (map_window GpiGpo.FPGA_MANAGER_SIZE GpiGpo.FPGA_MANAGER_BASE
         (fst (map_window Axi3.H2F_LW_SIZE Axi3.H2F_LW_BASE
                 (World [Some 3%N; Some 4%N]
                        [Some 65536%N; Some 4194304%N]
                        [0; 1; 2] [] ∅ [])))).

(** A step from [w] to [w'] that keeps the descriptors and the mappings
    and adds the events [evs] to the log. *)
Definition effect (w w' : world) (evs : list event) : Prop :=
  vmas w' = vmas w /\ fds w' = fds w /\ log w' = evs ++ log w.

(** The names of the failures, and the message by which the programs
    make each one known before [main] returns 1.  No message stands for
    [OutOfBoundsAccess]. *)
Inductive error := DeviceOpenError | MappingError | OutOfBoundsAccess.

Definition diagnose (msg : string) : option error :=
  if String.eqb msg ("Error opening /dev/mem" ++ nl) then Some DeviceOpenError
  else if String.eqb msg ("Error performing mmap" ++ nl) then Some MappingError
  else None.

Fixpoint last_message (l : list event) : option string :=
  match l with
  | [] => None
  | EvPrintf fmt _ :: _ => Some fmt
  | _ :: l' => last_message l'
  end.

Definition reported_error (w : world) : option error :=
  match last_message (log w) with
  | Some msg => diagnose msg
  | None => None
  end.

(** The register accesses of a log, newest first: stores with their
    value, and the addresses of all loads and stores. *)
Fixpoint store_events (l : list event) : list (Z * Z) :=
  match l with
  | [] => []
  | EvStore a v :: l' => (a, v) :: store_events l'
  | _ :: l' => store_events l'
  end.

Fixpoint access_addrs (l : list event) : list Z :=
  match l with
  | [] => []
  | EvStore a _ :: l' => a :: access_addrs l'
  | EvLoad a _ :: l' => a :: access_addrs l'
  | _ :: l' => access_addrs l'
  end.

Definition is_mmap (e : event) : bool :=
  match e with EvMmap _ _ _ _ _ _ _ => true | _ => false end.

(** The values the counter takes in iterations 1 to [n], newest first. *)
Definition counted (n : nat) : list Z :=
  rev (map (fun k => Z.of_nat k mod 256) (seq 1 n)).

(** What one run of a program has added to the log of [w0] by the time
    it is in [w]: stores to the register at [p + out] only, one per
    iteration and with the counter's values, and accesses only at the
    offsets [offs] from [p]. *)
Definition polled (p out : Z) (offs : list Z) (w0 : world) (k : nat)
    (w : world) : Prop :=
  exists new,
    log w = new ++ log w0 /\
    store_events new = map (fun v => (p + out, v)) (counted k) /\
    Forall (fun a => exists o, In o offs /\ a = p + o) (access_addrs new).

(** What holds each time a polling loop is about to start an iteration,
    [k] iterations after it began: the counter is [k mod 256], the window
    [win] is still live and the process holds what it held in [held]. *)
Definition loop_inv (win : vma) (out : Z) (offs : list Z)
    (w0 held : world) (k : nat) (leds : Z) (w : world) : Prop :=
  leds = Z.of_nat k mod 256 /\
  visible (vmas w) win = true /\
  fds w = fds held /\ vmas w = vmas held /\
  polled (vm_start win) out offs w0 k w.

(** ** The exact trace of a run *)

(** The four byte addresses of the 32-bit word at [a], and the word that
    the physical bytes [m] hold there. *)
Definition quad (a : Z) : Z * Z * Z * Z := (a, a + 1, a + 2, a + 3).

Definition word_at (m : gmap Z Z) (a : Z) : Z := load_bytes m (quad a).

(** What one iteration of each loop adds to the log, newest first, when
    the counter has become [v] and the registers read as given: the store
    of [v], the loads, the five [printf] calls of the row, the flush and
    the sleep, in the order of the source. *)
Definition axi3_row (p r1 r2 r3 v : Z) : list event :=
  [EvUsleep 10000; EvFflush;
   EvPrintf "0x%08X" [r3]; EvPrintf "0x%08X | " [r2];
   EvPrintf "0x%08X | " [r1]; EvPrintf "0x%08X | " [v]; EvPrintf cr [];
   EvLoad (p + 12) r3; EvLoad (p + 8) r2; EvLoad (p + 4) r1;
   EvLoad (p + 0) v; EvStore (p + 0) v].

Definition gpigpo_row (p st ct gi v : Z) : list event :=
  [EvUsleep 100000; EvFflush;
   EvPrintf "0x%08X" [v]; EvLoad (p + 16) v;
   EvPrintf "0x%08X | " [gi]; EvLoad (p + 20) gi;
   EvPrintf "0x%08X | " [ct]; EvLoad (p + 4) ct;
   EvPrintf "0x%08X | " [st]; EvLoad (p + 0) st;
   EvPrintf cr []; EvStore (p + 16) v].

(** A log without its loads, and one iteration of axi3_h2f_lw.c without
    its loads: the store of the counter and the calls, which a compiler
    must keep and keep in this order. *)
Fixpoint without_loads (l : list event) : list event :=
  match l with
  | [] => []
  | EvLoad _ _ :: l' => without_loads l'
  | e :: l' => e :: without_loads l'
  end.

Definition axi3_row_calls (p r1 r2 r3 v : Z) : list event :=
  [EvUsleep 10000; EvFflush;
   EvPrintf "0x%08X" [r3]; EvPrintf "0x%08X | " [r2];
   EvPrintf "0x%08X | " [r1]; EvPrintf "0x%08X | " [v]; EvPrintf cr [];
   EvStore (p + 0) v].

(** What a program has logged once the window is mapped and the header
    is printed: the call of [open], the call of [mmap], the header. *)
Definition prologue (fd p size base : Z) (header : string) : list event :=
  [EvPrintf header [];
   EvMmap NULL size [PROT_READ; PROT_WRITE] [MAP_SHARED] fd base p;
   EvOpen "/dev/mem" [O_RDWR; O_SYNC] fd].

(** Readings of a log: the time asked of [usleep], the calls that touch
    descriptors and mappings, the [printf] calls and the loads. *)
Fixpoint sleep_total (l : list event) : Z :=
  match l with
  | [] => 0
  | EvUsleep us :: l' => us + sleep_total l'
  | _ :: l' => sleep_total l'
  end.

Definition is_syscall (e : event) : bool :=
  match e with
  | EvOpen _ _ _ | EvMmap _ _ _ _ _ _ _ | EvMunmap _ _ | EvClose _ => true
  | _ => false
  end.

Fixpoint syscalls (l : list event) : list event :=
  match l with
  | [] => []
  | e :: l' => if is_syscall e then e :: syscalls l' else syscalls l'
  end.

Fixpoint load_events (l : list event) : list (Z * Z) :=
  match l with
  | [] => []
  | EvLoad a v :: l' => (a, v) :: load_events l'
  | _ :: l' => load_events l'
  end.

(** The state of a polling loop [k] iterations after it began in [wh],
    in full: besides the counter and what the process holds, the
    physical bytes differ from those of [wh] in the output register at
    [vm_phys win + out] only, which holds the counter once it was
    written, and the log is [wh]'s plus one [row] per iteration. *)
Definition exact_inv (win : vma) (out : Z) (row : Z -> list event)
    (wh : world) (k : nat) (leds : Z) (w : world) : Prop :=
  leds = Z.of_nat k mod 256 /\
  visible (vmas w) win = true /\
  fds w = fds wh /\ vmas w = vmas wh /\
  (forall q, q < vm_phys win + out \/ vm_phys win + out + 4 <= q ->
             peek (phys w) q = peek (phys wh) q) /\
  ((0 < k)%nat -> word_at (phys w) (vm_phys win + out) = Z.of_nat k mod 256) /\
  log w = flat_map row (counted k) ++ log wh.

(** ** Bytes of a 32-bit value *)

Lemma testbit_255 n : 0 <= n -> Z.testbit 255 n = (n <? 8).
Proof.
  intros Hn. change 255 with (Z.ones 8).
  apply Z.testbit_ones_nonneg; lia.
Qed.

Lemma byte_of_testbit v k n :
  0 <= k -> 0 <= n ->
  Z.testbit (byte_of v k) n = Z.testbit v (n + 8 * k) && (n <? 8).
Proof.
  intros Hk Hn. unfold byte_of.
  rewrite Z.land_spec, Z.shiftr_spec, testbit_255 by lia. reflexivity.
Qed.

Lemma byte_of_range v k : 0 <= byte_of v k < 256.
Proof.
  unfold byte_of. change 255 with (Z.ones 8).
  rewrite Z.land_ones by lia. apply Z.mod_pos_bound. lia.
Qed.

Lemma land_255_byte b : 0 <= b < 256 -> Z.land b 255 = b.
Proof.
  intros Hb. change 255 with (Z.ones 8).
  rewrite Z.land_ones by lia. apply Z.mod_small. exact Hb.
Qed.

Lemma byte_of_testbit_any v k n :
  0 <= k ->
  Z.testbit (byte_of v k) n =
  (0 <=? n) && (n <? 8) && Z.testbit v (n + 8 * k).
Proof.
  intros Hk. destruct (Z.leb_spec 0 n) as [Hn|Hn].
  - rewrite byte_of_testbit by lia. simpl. apply andb_comm.
  - rewrite Z.testbit_neg_r by lia. reflexivity.
Qed.

Lemma testbit_above_32 v n :
  0 <= v < 2 ^ 32 -> 32 <= n -> Z.testbit v n = false.
Proof.
  intros Hv Hn. rewrite <- (Z.mod_small v (2 ^ 32)) by lia.
  apply Z.mod_pow2_bits_high. lia.
Qed.

Lemma bytes_reassemble v :
  0 <= v < 2 ^ 32 ->
  Z.lor (byte_of v 0)
    (Z.lor (Z.shiftl (byte_of v 1) 8)
       (Z.lor (Z.shiftl (byte_of v 2) 16) (Z.shiftl (byte_of v 3) 24))) = v.
Proof.
  intros Hv. apply Z.bits_inj'. intros n Hn.
  rewrite !Z.lor_spec, !Z.shiftl_spec by lia.
  rewrite !byte_of_testbit_any by lia.
  replace (n + 8 * 0) with n by lia.
  replace (n - 8 + 8 * 1) with n by lia.
  replace (n - 16 + 8 * 2) with n by lia.
  replace (n - 24 + 8 * 3) with n by lia.
  destruct (Z.ltb_spec n 32) as [Hlt|Hge].
  - destruct (Z.leb_spec 0 n), (Z.ltb_spec n 8),
      (Z.leb_spec 0 (n - 8)), (Z.ltb_spec (n - 8) 8),
      (Z.leb_spec 0 (n - 16)), (Z.ltb_spec (n - 16) 8),
      (Z.leb_spec 0 (n - 24)), (Z.ltb_spec (n - 24) 8);
      try lia; simpl; rewrite ?orb_false_r; reflexivity.
  - rewrite (testbit_above_32 v n) by lia.
    rewrite !andb_false_r. reflexivity.
Qed.

(** ** The echoing store *)

Lemma peek_insert_eq (m : gmap Z Z) p b :
  0 <= b < 256 -> peek (<[p := b]> m) p = b.
Proof.
  intros Hb. unfold peek. rewrite lookup_insert_eq. simpl.
  apply land_255_byte, Hb.
Qed.

Lemma peek_insert_ne (m : gmap Z Z) p q b :
  p <> q -> peek (<[p := b]> m) q = peek m q.
Proof. intros Hne. unfold peek. now rewrite lookup_insert_ne. Qed.

Lemma peek_store_other m p0 p1 p2 p3 v q :
  q <> p0 -> q <> p1 -> q <> p2 -> q <> p3 ->
  peek (store_bytes m (p0, p1, p2, p3) v) q = peek m q.
Proof.
  intros H0 H1 H2 H3. unfold store_bytes.
  rewrite !peek_insert_ne by congruence. reflexivity.
Qed.

Lemma load_store_same m p v :
  0 <= v < 2 ^ 32 ->
  load_bytes (store_bytes m (p, p + 1, p + 2, p + 3) v)
             (p, p + 1, p + 2, p + 3) = v.
Proof.
  intros Hv. unfold load_bytes, store_bytes.
  rewrite (peek_insert_eq _ (p + 3)) by apply byte_of_range.
  rewrite (peek_insert_ne _ (p + 3) (p + 2)) by lia.
  rewrite (peek_insert_eq _ (p + 2)) by apply byte_of_range.
  rewrite (peek_insert_ne _ (p + 3) (p + 1)) by lia.
  rewrite (peek_insert_ne _ (p + 2) (p + 1)) by lia.
  rewrite (peek_insert_eq _ (p + 1)) by apply byte_of_range.
  rewrite (peek_insert_ne _ (p + 3) p) by lia.
  rewrite (peek_insert_ne _ (p + 2) p) by lia.
  rewrite (peek_insert_ne _ (p + 1) p) by lia.
  rewrite (peek_insert_eq _ p) by apply byte_of_range.
  apply bytes_reassemble, Hv.
Qed.

Lemma load_store_apart m p q v :
  p + 4 <= q \/ q + 4 <= p ->
  load_bytes (store_bytes m (p, p + 1, p + 2, p + 3) v)
             (q, q + 1, q + 2, q + 3) =
  load_bytes m (q, q + 1, q + 2, q + 3).
Proof.
  intros Hpq. unfold load_bytes.
  rewrite !peek_store_other by lia. reflexivity.
Qed.

(** ** Windows and address translation *)

Lemma vma_eqb_eq u v : vma_eqb u v = true -> u = v.
Proof.
  destruct u, v. unfold vma_eqb. simpl. intros H.
  repeat (apply andb_true_iff in H; destruct H as [H ?]).
  f_equal; lia.
Qed.

Lemma vma_eqb_refl v : vma_eqb v v = true.
Proof. unfold vma_eqb. now rewrite !Z.eqb_refl. Qed.

Lemma translate_visible vs v o :
  visible vs v = true -> 0 <= o < vm_len v ->
  translate vs (vm_start v + o) = Some (vm_phys v + o).
Proof.
  intros Hvis Ho. induction vs as [|u vs IH]; simpl in *; [discriminate|].
  destruct (vma_eqb u v) eqn:E.
  - apply vma_eqb_eq in E. subst u.
    destruct (Z.leb_spec (vm_start v) (vm_start v + o)); [|lia].
    destruct (Z.ltb_spec (vm_start v + o) (vm_start v + vm_len v)); [|lia].
    simpl. f_equal. lia.
  - apply andb_true_iff in Hvis. destruct Hvis as [Hno Hvis].
    apply negb_true_iff in Hno. unfold overlaps in Hno.
    destruct (Z.leb_spec (vm_start u) (vm_start v + o)),
      (Z.ltb_spec (vm_start v + o) (vm_start u + vm_len u)); simpl;
      auto.
    exfalso. apply andb_false_iff in Hno. destruct Hno as [Hno|Hno].
    + apply Z.ltb_ge in Hno. lia.
    + apply Z.ltb_ge in Hno. lia.
Qed.

Lemma translate4_visible vs v o :
  visible vs v = true -> 0 <= o -> o + 4 <= vm_len v ->
  translate4 vs (vm_start v + o) =
  Some (vm_phys v + o, vm_phys v + o + 1, vm_phys v + o + 2,
        vm_phys v + o + 3).
Proof.
  intros Hvis Ho Hlen. unfold translate4.
  replace (vm_start v + o + 1) with (vm_start v + (o + 1)) by lia.
  replace (vm_start v + o + 2) with (vm_start v + (o + 2)) by lia.
  replace (vm_start v + o + 3) with (vm_start v + (o + 3)) by lia.
  rewrite !(translate_visible vs v) by (auto; lia).
  rewrite !Z.add_assoc. reflexivity.
Qed.

Lemma visible_head v vs : visible (v :: vs) v = true.
Proof. simpl. now rewrite vma_eqb_refl. Qed.

(** ** Mapping and releasing a window *)

Lemma answer_hd_tl l : answer l = (hd None l, tl l).
Proof. destruct l; reflexivity. Qed.

Lemma of_N_not_failed n : (Z.of_N n =? -1) = false.
Proof. apply Z.eqb_neq. lia. Qed.

Lemma remove_first_head fd l : remove_first (Z.eqb fd) (fd :: l) = l.
Proof. simpl. now rewrite Z.eqb_refl. Qed.

Lemma map_window_open_fails size base w :
  hd None (open_answers w) = None ->
  map_window size base w =
  (World (tl (open_answers w)) (mmap_answers w) (fds w) (vmas w) (phys w)
     (EvPrintf ("Error opening /dev/mem" ++ nl) []
      :: EvOpen "/dev/mem" [O_RDWR; O_SYNC] (-1) :: log w),
   Exit 1).
Proof.
  intros Ho. unfold map_window, bind, sys_open.
  rewrite answer_hd_tl, Ho. reflexivity.
Qed.

Lemma map_window_mmap_fails size base w n :
  hd None (open_answers w) = Some n ->
  hd None (mmap_answers w) = None ->
  map_window size base w =
  (World (tl (open_answers w)) (tl (mmap_answers w)) (fds w) (vmas w)
     (phys w)
     (EvClose (Z.of_N n)
      :: EvPrintf ("Error performing mmap" ++ nl) []
      :: EvMmap NULL size [PROT_READ; PROT_WRITE] [MAP_SHARED] (Z.of_N n) base
           MAP_FAILED
      :: EvOpen "/dev/mem" [O_RDWR; O_SYNC] (Z.of_N n) :: log w),
   Exit 1).
Proof.
  intros Ho Hm. unfold map_window, bind, sys_open.
  rewrite answer_hd_tl, Ho, of_N_not_failed.
  unfold sys_mmap. simpl. rewrite answer_hd_tl, Hm. simpl.
  now rewrite Z.eqb_refl.
Qed.

Lemma map_window_ok size base w n a :
  hd None (open_answers w) = Some n ->
  hd None (mmap_answers w) = Some a ->
  map_window size base w =
  (World (tl (open_answers w)) (tl (mmap_answers w))
     (Z.of_N n :: fds w)
     (window (Z.of_N n) (Z.of_N a) size base :: vmas w) (phys w)
     (EvMmap NULL size [PROT_READ; PROT_WRITE] [MAP_SHARED] (Z.of_N n) base
        (Z.of_N a)
      :: EvOpen "/dev/mem" [O_RDWR; O_SYNC] (Z.of_N n) :: log w),
   Next (Z.of_N n, Z.of_N a)).
Proof.
  intros Ho Hm. unfold map_window, bind, sys_open.
  rewrite answer_hd_tl, Ho, of_N_not_failed.
  unfold sys_mmap. simpl. rewrite answer_hd_tl, Hm.
  unfold MAP_FAILED. now rewrite of_N_not_failed.
Qed.

(** Whatever the platform answers, [map_window] ends in one of three
    ways, decided by the first answers of [open] and [mmap]. *)
Lemma map_window_cases w :
  (hd None (open_answers w) = None) \/
  (exists n, hd None (open_answers w) = Some n /\
             hd None (mmap_answers w) = None) \/
  (exists n a, hd None (open_answers w) = Some n /\
               hd None (mmap_answers w) = Some a).
Proof.
  destruct (hd None (open_answers w)) as [n|]; [|now left].
  right. destruct (hd None (mmap_answers w)) as [a|]; eauto.
Qed.

Lemma map_window_success size base w w1 fd p :
  map_window size base w = (w1, Next (fd, p)) ->
  exists n a,
    hd None (open_answers w) = Some n /\
    hd None (mmap_answers w) = Some a /\
    fd = Z.of_N n /\ p = Z.of_N a.
Proof.
  intros H.
  destruct (map_window_cases w) as [Ho|[(n & Ho & Hm)|(n & a & Ho & Hm)]].
  - rewrite map_window_open_fails in H by exact Ho. discriminate.
  - rewrite (map_window_mmap_fails _ _ _ n) in H by assumption. discriminate.
  - rewrite (map_window_ok _ _ _ n a) in H by assumption.
    inversion H. exists n, a. auto.
Qed.

Lemma unmap_window_head fd p size base w :
  vmas w = window fd p size base :: tl (vmas w) ->
  fds w = fd :: tl (fds w) ->
  unmap_window p size fd w =
  (World (open_answers w) (mmap_answers w) (tl (fds w)) (tl (vmas w))
     (phys w) (EvClose fd :: EvMunmap p size :: log w),
   Next tt).
Proof.
  intros Hv Hf. unfold unmap_window, bind, sys_munmap, sys_close, ret.
  simpl. rewrite Hv, Hf. simpl. now rewrite !Z.eqb_refl.
Qed.

(** C5.  When [/dev/mem] cannot be opened, [map_window] (and so each
    program) prints the open-failure message and returns 1 without calling
    [mmap]: the log gains the failed [open] and the message only, the
    platform's [mmap] answers are untouched, and the failure reported is
    [DeviceOpenError]. *)
Theorem open_failure_is_device_open_error size base w :
  hd None (open_answers w) = None ->
  exists w',
    map_window size base w = (w', Exit 1) /\
    log w' = EvPrintf ("Error opening /dev/mem" ++ nl) []
             :: EvOpen "/dev/mem" [O_RDWR; O_SYNC] (-1) :: log w /\
    existsb is_mmap (firstn 2 (log w')) = false /\
    mmap_answers w' = mmap_answers w /\
    vmas w' = vmas w /\ fds w' = fds w /\
    reported_error w' = Some DeviceOpenError /\
    (forall fuel, Axi3.main fuel w = (w', Exit 1)) /\
    (forall fuel, GpiGpo.main fuel w = (w', Exit 1)).
Proof.
  intros Ho. eexists. split; [apply map_window_open_fails, Ho|].
  repeat split; intros; unfold Axi3.main, GpiGpo.main, bind;
    rewrite map_window_open_fails by exact Ho; reflexivity.
Qed.

Lemma open_failure_is_device_open_error_witness :
  hd None (open_answers w_denied) = None /\
  exists w',
    map_window 28 4285554688 w_denied = (w', Exit 1) /\
    log w' = EvPrintf ("Error opening /dev/mem" ++ nl) []
             :: EvOpen "/dev/mem" [O_RDWR; O_SYNC] (-1) :: log w_denied /\
    existsb is_mmap (firstn 2 (log w')) = false /\
    mmap_answers w' = mmap_answers w_denied /\
    vmas w' = vmas w_denied /\ fds w' = fds w_denied /\
    reported_error w' = Some DeviceOpenError /\
    (forall fuel, Axi3.main fuel w_denied = (w', Exit 1)) /\
    (forall fuel, GpiGpo.main fuel w_denied = (w', Exit 1)).
Proof.
  split; [reflexivity|].
  apply (open_failure_is_device_open_error 28 4285554688 w_denied).
  reflexivity.
Defined.

(** C2.  When [/dev/mem] opens as descriptor [fd] and [mmap] then fails,
    [map_window] (and so each program) closes [fd] before it returns 1:
    [close fd] is the last call in the log, the descriptor table is what it
    was before the call, no mapping was added, and the failure reported is
    [MappingError]. *)
Theorem mmap_failure_closes_descriptor size base w n :
  hd None (open_answers w) = Some n ->
  hd None (mmap_answers w) = None ->
  exists w',
    map_window size base w = (w', Exit 1) /\
    log w' = EvClose (Z.of_N n)
             :: EvPrintf ("Error performing mmap" ++ nl) []
             :: EvMmap NULL size [PROT_READ; PROT_WRITE] [MAP_SHARED] (Z.of_N n)
                  base MAP_FAILED
             :: EvOpen "/dev/mem" [O_RDWR; O_SYNC] (Z.of_N n) :: log w /\
    fds w' = fds w /\ vmas w' = vmas w /\
    reported_error w' = Some MappingError /\
    (forall fuel,
       Axi3.main fuel w =
       (fst (map_window Axi3.H2F_LW_SIZE Axi3.H2F_LW_BASE w), Exit 1)) /\
    (forall fuel,
       GpiGpo.main fuel w =
       (fst (map_window GpiGpo.FPGA_MANAGER_SIZE GpiGpo.FPGA_MANAGER_BASE w),
        Exit 1)).
Proof.
  intros Ho Hm. eexists.
  split; [apply (map_window_mmap_fails _ _ _ n); assumption|].
  repeat split; intros; unfold Axi3.main, GpiGpo.main, bind;
    rewrite (map_window_mmap_fails _ _ _ n) by assumption; reflexivity.
Qed.

Lemma mmap_failure_closes_descriptor_witness :
  exists w',
    map_window 28 4285554688 w_nomap = (w', Exit 1) /\
    log w' = EvClose 3
             :: EvPrintf ("Error performing mmap" ++ nl) []
             :: EvMmap NULL 28 [PROT_READ; PROT_WRITE] [MAP_SHARED] 3
                  4285554688 MAP_FAILED
             :: EvOpen "/dev/mem" [O_RDWR; O_SYNC] 3 :: log w_nomap /\
    fds w' = fds w_nomap /\ vmas w' = vmas w_nomap /\
    reported_error w' = Some MappingError /\
    (forall fuel,
       Axi3.main fuel w_nomap =
       (fst (map_window Axi3.H2F_LW_SIZE Axi3.H2F_LW_BASE w_nomap),
        Exit 1)) /\
    (forall fuel,
       GpiGpo.main fuel w_nomap =
       (fst (map_window GpiGpo.FPGA_MANAGER_SIZE GpiGpo.FPGA_MANAGER_BASE
               w_nomap),
        Exit 1)).
Proof.
  apply (mmap_failure_closes_descriptor 28 4285554688 w_nomap 3%N);
    reflexivity.
Defined.

(** C6.  After a successful [map_window], [unmap_window] on its result
    calls [munmap] on the mapped range and then [close] on the descriptor,
    and leaves the process with exactly the descriptors and mappings it
    had before [map_window]: no handle and no mapping of the window
    remain. *)
Theorem map_then_unmap_releases_everything size base w w1 fd p :
  map_window size base w = (w1, Next (fd, p)) ->
  exists w2,
    unmap_window p size fd w1 = (w2, Next tt) /\
    log w2 = EvClose fd :: EvMunmap p size :: log w1 /\
    fds w2 = fds w /\ vmas w2 = vmas w /\ phys w2 = phys w.
Proof.
  intros H.
  destruct (map_window_success _ _ _ _ _ _ H) as (n & a & Ho & Hm & -> & ->).
  rewrite (map_window_ok _ _ _ n a) in H by assumption.
  inversion H; subst w1; clear H.
  eexists. split; [apply (unmap_window_head _ _ _ base); reflexivity|].
  repeat split.
Qed.

Lemma map_then_unmap_releases_everything_witness :
  exists w2,
    unmap_window 65536 28 3 (fst (map_window 28 4285554688 w_ok))
      = (w2, Next tt) /\
    log w2 = EvClose 3 :: EvMunmap 65536 28
             :: log (fst (map_window 28 4285554688 w_ok)) /\
    fds w2 = fds w_ok /\ vmas w2 = vmas w_ok /\ phys w2 = phys w_ok.
Proof.
  apply (map_then_unmap_releases_everything 28 4285554688 w_ok
           (fst (map_window 28 4285554688 w_ok)) 3 65536).
  reflexivity.
Defined.

(** C7.  For a window of positive length, [map_window] ends in one of two
    states only.  On success the window is fully mapped (descriptor open,
    base not [MAP_FAILED], mapping live) and [unmap_window] then releases
    both the mapping and the descriptor.  On either failure [main]
    returns with nothing held: descriptors and mappings are those from
    before the call.  It never faults or loops. *)
Theorem window_never_partial size base w :
  0 < size ->
  match map_window size base w with
  | (w1, Next (fd, p)) =>
      fully_mapped w1 fd p size base /\
      exists w2, unmap_window p size fd w1 = (w2, Next tt) /\
                 nothing_held w w2
  | (w1, Exit code) => code = 1 /\ nothing_held w w1
  | (_, Fault) => False
  | (_, Running) => False
  end.
Proof.
  intros Hsize.
  destruct (map_window_cases w) as [Ho|[(n & Ho & Hm)|(n & a & Ho & Hm)]].
  - rewrite map_window_open_fails by exact Ho. repeat split.
  - rewrite (map_window_mmap_fails _ _ _ n) by assumption. repeat split.
  - rewrite (map_window_ok _ _ _ n a) by assumption. split.
    + unfold fully_mapped. simpl. repeat split.
      * now left.
      * unfold MAP_FAILED. lia.
      * apply visible_head.
      * exact Hsize.
    + eexists. split; [apply (unmap_window_head _ _ _ base); reflexivity|].
      split; reflexivity.
Qed.

Lemma window_never_partial_witness :
  0 < 28 /\
  match map_window 28 4285554688 w_ok with
  | (w1, Next (fd, p)) =>
      fully_mapped w1 fd p 28 4285554688 /\
      exists w2, unmap_window p 28 fd w1 = (w2, Next tt) /\
                 nothing_held w_ok w2
  | (w1, Exit code) => code = 1 /\ nothing_held w_ok w1
  | (_, Fault) => False
  | (_, Running) => False
  end.
Proof.
  split; [lia|].
  apply (window_never_partial 28 4285554688 w_ok). lia.
Defined.

(** ** Reading and writing registers *)

Lemma write32_window w v o V :
  visible (vmas w) v = true -> in_bounds (vm_len v) o ->
  write32 (register_pointer (vm_start v) o) V w =
  (World (open_answers w) (mmap_answers w) (fds w) (vmas w)
     (store_bytes (phys w)
        (vm_phys v + o, vm_phys v + o + 1, vm_phys v + o + 2,
         vm_phys v + o + 3) V)
     (EvStore (vm_start v + o) V :: log w),
   Next tt).
Proof.
  intros Hvis [Ho Hlen]. unfold write32, register_pointer.
  now rewrite (translate4_visible _ v).
Qed.

Lemma read32_window w v o :
  visible (vmas w) v = true -> in_bounds (vm_len v) o ->
  read32 (register_pointer (vm_start v) o) w =
  (record
     (EvLoad (vm_start v + o)
        (load_bytes (phys w)
           (vm_phys v + o, vm_phys v + o + 1, vm_phys v + o + 2,
            vm_phys v + o + 3))) w,
   Next (load_bytes (phys w)
           (vm_phys v + o, vm_phys v + o + 1, vm_phys v + o + 2,
            vm_phys v + o + 3))).
Proof.
  intros Hvis [Ho Hlen]. unfold read32, register_pointer.
  now rewrite (translate4_visible _ v).
Qed.

(** C4.  Through a live window and at an in-bounds offset, a write of a
    32-bit value [V] followed at once by a read of the same register
    returns exactly [V]: all 32 bits come back, in their places. *)
Theorem write_then_read_returns_value w v o V :
  visible (vmas w) v = true ->
  in_bounds (vm_len v) o ->
  0 <= V < 2 ^ 32 ->
  exists w1 w2,
    write32 (register_pointer (vm_start v) o) V w = (w1, Next tt) /\
    read32 (register_pointer (vm_start v) o) w1 = (w2, Next V) /\
    log w2 = EvLoad (vm_start v + o) V :: EvStore (vm_start v + o) V
             :: log w.
Proof.
  intros Hvis Hin HV. eexists. eexists.
  split; [apply write32_window; assumption|].
  rewrite read32_window by assumption. cbn [phys].
  rewrite load_store_same by exact HV. split; reflexivity.
Qed.

Lemma write_then_read_returns_value_witness :
  exists w1 w2,
    write32 (register_pointer 65536 8) 2147483648 w_both = (w1, Next tt) /\
    read32 (register_pointer 65536 8) w1 = (w2, Next 2147483648) /\
    log w2 = EvLoad (65536 + 8) 2147483648
             :: EvStore (65536 + 8) 2147483648 :: log w_both.
Proof.
  apply (write_then_read_returns_value w_both
           (window 3 65536 Axi3.H2F_LW_SIZE Axi3.H2F_LW_BASE) 8 2147483648).
  - reflexivity.
  - unfold in_bounds, window, Axi3.H2F_LW_SIZE. cbn [vm_len]. lia.
  - lia.
Defined.

Example echo_0x00000000 :
  snd (read32 65536 (fst (write32 65536 0 w_both))) = Next 0.
Proof. reflexivity. Qed.

Example echo_0xFFFFFFFF :
  snd (read32 65536 (fst (write32 65536 0xFFFFFFFF w_both)))
  = Next 0xFFFFFFFF.
Proof. reflexivity. Qed.

Example echo_0x00000001 :
  snd (read32 65536 (fst (write32 65536 1 w_both))) = Next 1.
Proof. reflexivity. Qed.

Example echo_0x80000000 :
  snd (read32 65536 (fst (write32 65536 0x80000000 w_both)))
  = Next 0x80000000.
Proof. reflexivity. Qed.

(** C9, as the code has it.  Two live windows over physical ranges that
    do not overlap do not interfere as long as each is used within its
    bounds: after a write through one of them at an offset with
    [0 <= offset] and [offset + 4 <= length], every byte behind the other
    is what it was, and a read through the other at an offset within its
    bounds returns what it returned before the write.  The bridge window
    and the FPGA manager window of the two programs are such a pair. *)
Theorem disjoint_windows_do_not_interfere w v1 v2 o1 o2 V :
  visible (vmas w) v1 = true ->
  visible (vmas w) v2 = true ->
  vm_phys v1 + vm_len v1 <= vm_phys v2 \/
  vm_phys v2 + vm_len v2 <= vm_phys v1 ->
  in_bounds (vm_len v1) o1 ->
  in_bounds (vm_len v2) o2 ->
  exists w1,
    write32 (register_pointer (vm_start v1) o1) V w = (w1, Next tt) /\
    snd (read32 (register_pointer (vm_start v2) o2) w1) =
    snd (read32 (register_pointer (vm_start v2) o2) w) /\
    forall q, vm_phys v2 <= q < vm_phys v2 + vm_len v2 ->
              peek (phys w1) q = peek (phys w) q.
Proof.
  intros H1 H2 Hdis Hin1 Hin2. eexists.
  split; [apply write32_window; assumption|].
  destruct Hin1 as [Ho1 Hl1]. destruct Hin2 as [Ho2 Hl2]. split.
  - rewrite !read32_window by (assumption || (split; assumption)).
    cbn [snd phys]. rewrite load_store_apart by lia. reflexivity.
  - intros q Hq. cbn [phys]. apply peek_store_other; lia.
Qed.

Lemma disjoint_windows_do_not_interfere_witness :
  Axi3.H2F_LW_BASE + Axi3.H2F_LW_SIZE <= GpiGpo.FPGA_MANAGER_BASE /\
  exists w1,
    write32 (register_pointer 65536 0) 255 w_both = (w1, Next tt) /\
    snd (read32 (register_pointer 4194304 GpiGpo.FPGA_MANAGER_GPO) w1) =
    snd (read32 (register_pointer 4194304 GpiGpo.FPGA_MANAGER_GPO) w_both) /\
    forall q,
      GpiGpo.FPGA_MANAGER_BASE <= q
        < GpiGpo.FPGA_MANAGER_BASE + GpiGpo.FPGA_MANAGER_SIZE ->
      peek (phys w1) q = peek (phys w_both) q.
Proof.
  split; [vm_compute; discriminate|].
  apply (disjoint_windows_do_not_interfere w_both
           (window 3 65536 Axi3.H2F_LW_SIZE Axi3.H2F_LW_BASE)
           (window 4 4194304 GpiGpo.FPGA_MANAGER_SIZE
              GpiGpo.FPGA_MANAGER_BASE)
           0 GpiGpo.FPGA_MANAGER_GPO 255).
  - reflexivity.
  - reflexivity.
  - left. vm_compute. discriminate.
  - split; vm_compute; discriminate.
  - split; vm_compute; discriminate.
Defined.

(** C9 as stated fails.  In [w_pages] the bridge page and the FPGA
    manager page are two live windows of 4096 bytes over physical ranges
    that do not overlap.  A write through the bridge window at offset
    4096 + 0x10, which is beyond its length, completes and is seen by a
    read of GPO through the FPGA manager window, which returned 0 before
    and returns 7 after.  Likewise a write to reg0 within the bridge
    window is seen by a read through the FPGA manager window at offset
    -4096, which is out of that window's bounds. *)
Lemma out_of_bounds_write_crosses_windows :
  visible (vmas w_pages) (window 3 65536 4096 Axi3.H2F_LW_BASE) = true /\
  visible (vmas w_pages) (window 4 69632 4096 GpiGpo.FPGA_MANAGER_BASE)
  = true /\
  Axi3.H2F_LW_BASE + 4096 <= GpiGpo.FPGA_MANAGER_BASE /\
  snd (read32 (register_pointer 69632 GpiGpo.FPGA_MANAGER_GPO) w_pages)
  = Next 0 /\
  snd (write32 (register_pointer 65536 (4096 + 16)) 7 w_pages) = Next tt /\
  snd (read32 (register_pointer 69632 GpiGpo.FPGA_MANAGER_GPO)
         (fst (write32 (register_pointer 65536 (4096 + 16)) 7 w_pages)))
  = Next 7 /\
  snd (read32 (register_pointer 69632 (-4096)) w_pages) = Next 0 /\
  snd (read32 (register_pointer 69632 (-4096))
         (fst (write32 (register_pointer 65536 0) 7 w_pages)))
  = Next 7.
Proof.
  split; [reflexivity|]. split; [reflexivity|].
  split; [vm_compute; discriminate|].
  repeat split.
Qed.

(** C1, as the code has it.  No access is checked against the window it
    is made through, and none is refused as out of bounds.  A read or a
    write through the base of a live window [v] at any offset, within
    [v]'s bounds or not, whose four bytes lie inside a live window [v']
    ([v] itself when the offset is within bounds, another window
    otherwise) completes.  It is logged as an ordinary access at the
    address asked for; a write changes the four physical bytes of [v']
    behind that address and no other byte, so that a read through [v']
    returns the value written. *)
Theorem accesses_are_unchecked w v v' o o' V :
  visible (vmas w) v = true ->
  visible (vmas w) v' = true ->
  vm_start v + o = vm_start v' + o' ->
  in_bounds (vm_len v') o' ->
  0 <= V < 2 ^ 32 ->
  exists w1 w2 r,
    write32 (register_pointer (vm_start v) o) V w = (w1, Next tt) /\
    log w1 = EvStore (vm_start v + o) V :: log w /\
    (forall q, q < vm_phys v' + o' \/ vm_phys v' + o' + 4 <= q ->
               peek (phys w1) q = peek (phys w) q) /\
    snd (read32 (register_pointer (vm_start v') o') w1) = Next V /\
    read32 (register_pointer (vm_start v) o) w = (w2, Next r) /\
    log w2 = EvLoad (vm_start v + o) r :: log w /\
    snd (read32 (register_pointer (vm_start v') o') w) = Next r.
Proof.
  intros Hv Hv' Haddr Hin HV.
  assert (Hptr : register_pointer (vm_start v) o =
                 register_pointer (vm_start v') o')
    by (unfold register_pointer; exact Haddr).
  rewrite Hptr, Haddr.
  rewrite (write32_window w v' o' V Hv' Hin).
  rewrite (read32_window w v' o' Hv' Hin).
  eexists. eexists. eexists.
  split; [reflexivity|]. split; [reflexivity|]. split; [|split].
  - intros q Hq. cbn [phys]. apply peek_store_other; lia.
  - rewrite read32_window by assumption.
    cbn [snd phys]. now rewrite load_store_same.
  - split; [reflexivity|]. split; reflexivity.
Qed.

Lemma accesses_are_unchecked_witness :
  4096 + 16 + 4 > vm_len (window 3 65536 4096 Axi3.H2F_LW_BASE) /\
  exists w1 w2 r,
    write32 (register_pointer 65536 (4096 + 16)) 7 w_pages
    = (w1, Next tt) /\
    log w1 = EvStore (65536 + (4096 + 16)) 7 :: log w_pages /\
    (forall q, q < GpiGpo.FPGA_MANAGER_BASE + 16 \/
               GpiGpo.FPGA_MANAGER_BASE + 16 + 4 <= q ->
               peek (phys w1) q = peek (phys w_pages) q) /\
    snd (read32 (register_pointer 69632 16) w1) = Next 7 /\
    read32 (register_pointer 65536 (4096 + 16)) w_pages = (w2, Next r) /\
    log w2 = EvLoad (65536 + (4096 + 16)) r :: log w_pages /\
    snd (read32 (register_pointer 69632 16) w_pages) = Next r.
Proof.
  split; [reflexivity|].
  apply (accesses_are_unchecked w_pages
           (window 3 65536 4096 Axi3.H2F_LW_BASE)
           (window 4 69632 4096 GpiGpo.FPGA_MANAGER_BASE)
           (4096 + 16) 16 7).
  - reflexivity.
  - reflexivity.
  - reflexivity.
  - split; vm_compute; discriminate.
  - lia.
Defined.

(** C1 as stated fails.  In [w_pages] the bridge window has length 4096
    at address 0x10000, and offset 4096 is out of its bounds; yet the
    write at that offset is not refused: it completes, is logged as a
    store at 0x10000 + 4096, and changes the first byte of the FPGA
    manager page, which belongs to the other window. *)
Lemma out_of_bounds_write_is_performed :
  visible (vmas w_pages) (window 3 65536 4096 Axi3.H2F_LW_BASE) = true /\
  4096 + 4 > vm_len (window 3 65536 4096 Axi3.H2F_LW_BASE) /\
  exists w1,
    write32 (register_pointer 65536 4096) 7 w_pages = (w1, Next tt) /\
    log w1 = EvStore (65536 + 4096) 7 :: log w_pages /\
    peek (phys w_pages) GpiGpo.FPGA_MANAGER_BASE = 0 /\
    peek (phys w1) GpiGpo.FPGA_MANAGER_BASE = 7.
Proof.
  split; [reflexivity|]. split; [reflexivity|].
  eexists. split; [reflexivity|]. repeat split.
Qed.

(** ** The polling loops *)

Lemma write32_at w fd p size base o V :
  visible (vmas w) (window fd p size base) = true -> in_bounds size o ->
  write32 (register_pointer p o) V w =
  (World (open_answers w) (mmap_answers w) (fds w) (vmas w)
     (store_bytes (phys w)
        (base + o, base + o + 1, base + o + 2, base + o + 3) V)
     (EvStore (p + o) V :: log w),
   Next tt).
Proof. intros Hvis Hin. apply (write32_window w _ o V Hvis Hin). Qed.

Lemma read32_at w fd p size base o :
  visible (vmas w) (window fd p size base) = true -> in_bounds size o ->
  read32 (register_pointer p o) w =
  (record
     (EvLoad (p + o)
        (load_bytes (phys w)
           (base + o, base + o + 1, base + o + 2, base + o + 3))) w,
   Next (load_bytes (phys w)
           (base + o, base + o + 1, base + o + 2, base + o + 3))).
Proof. intros Hvis Hin. apply (read32_window w _ o Hvis Hin). Qed.

Lemma next_leds_mod l : 0 <= l < 256 -> next_leds l = (l + 1) mod 256.
Proof.
  intros Hl. unfold next_leds, u32.
  destruct (Z.eqb_spec l 255) as [->|Hne]; [reflexivity|].
  rewrite Z.mod_small by lia. rewrite Z.mod_small by lia. reflexivity.
Qed.

Lemma next_leds_of_nat k :
  next_leds (Z.of_nat k mod 256) = Z.of_nat (S k) mod 256.
Proof.
  rewrite next_leds_mod by (apply Z.mod_pos_bound; lia).
  rewrite Z.add_mod_idemp_l by lia. f_equal. lia.
Qed.

(** A loop whose body always completes and keeps an invariant is still
    running, with the invariant, when its fuel is spent. *)
Lemma while_true_running {S : Type} (I : nat -> S -> world -> Prop)
    (body : S -> prog S) :
  (forall k s w, I k s w ->
     exists s' w', body s w = (w', Next s') /\ I (Datatypes.S k) s' w') ->
  forall n k s w, I k s w ->
    exists s' w', while_true n body s w = (w', Running) /\
                  I (k + n)%nat s' w'.
Proof.
  intros Hstep n. induction n as [|n IH]; intros k s w HI.
  - exists s, w. split; [reflexivity|]. now rewrite Nat.add_0_r.
  - destruct (Hstep k s w HI) as (s1 & w1 & Hb & HI1).
    destruct (IH _ _ _ HI1) as (s2 & w2 & Hloop & HI2).
    exists s2, w2. split.
    + simpl. unfold bind. rewrite Hb. exact Hloop.
    + now rewrite Nat.add_succ_r.
Qed.

Lemma store_events_app l1 l2 :
  store_events (l1 ++ l2) = store_events l1 ++ store_events l2.
Proof.
  induction l1 as [|e l1 IH]; [reflexivity|].
  destruct e; simpl; rewrite ?IH; reflexivity.
Qed.

Lemma access_addrs_app l1 l2 :
  access_addrs (l1 ++ l2) = access_addrs l1 ++ access_addrs l2.
Proof.
  induction l1 as [|e l1 IH]; [reflexivity|].
  destruct e; simpl; rewrite ?IH; reflexivity.
Qed.

Lemma counted_S n : counted (S n) = Z.of_nat (S n) mod 256 :: counted n.
Proof.
  unfold counted. rewrite seq_S, map_app, rev_app_distr. reflexivity.
Qed.

Lemma counted_range n : Forall (fun v => 0 <= v <= 255) (counted n).
Proof.
  unfold counted. apply Forall_rev, Forall_forall. intros v Hv.
  apply list_elem_of_In, in_map_iff in Hv. destruct Hv as (k & <- & _).
  pose proof (Z.mod_pos_bound (Z.of_nat k) 256). lia.
Qed.


Lemma write32_effect w fd p size base o V :
  visible (vmas w) (window fd p size base) = true -> in_bounds size o ->
  exists w',
    write32 (register_pointer p o) V w = (w', Next tt) /\
    effect w w' [EvStore (p + o) V].
Proof.
  intros Hvis Hin. eexists. split; [apply (write32_at _ fd p size base)|];
    try assumption.
  repeat split.
Qed.

Lemma read32_effect w fd p size base o :
  visible (vmas w) (window fd p size base) = true -> in_bounds size o ->
  exists r w',
    read32 (register_pointer p o) w = (w', Next r) /\
    effect w w' [EvLoad (p + o) r].
Proof.
  intros Hvis Hin. eexists. eexists.
  split; [apply (read32_at _ fd p size base)|]; try assumption.
  repeat split.
Qed.

Lemma effect_visible w w' evs v :
  effect w w' evs -> visible (vmas w) v = true ->
  visible (vmas w') v = true.
Proof. intros (Hv & _ & _) H. now rewrite Hv. Qed.

Lemma polled_step p out offs w0 k w evs w' :
  polled p out offs w0 k w ->
  log w' = evs ++ log w ->
  store_events evs = [(p + out, Z.of_nat (S k) mod 256)] ->
  Forall (fun a => exists o, In o offs /\ a = p + o) (access_addrs evs) ->
  polled p out offs w0 (S k) w'.
Proof.
  intros (new & Hlog & Hst & Hacc) Hlog' Hst' Hacc'.
  exists (evs ++ new). split; [|split].
  - rewrite Hlog', Hlog. apply app_assoc.
  - rewrite store_events_app, Hst', Hst, counted_S. reflexivity.
  - rewrite access_addrs_app. apply Forall_app. split; assumption.
Qed.

(** One register access in a body: name its result world, go on in it. *)
Ltac access lemma Hvis Hb fd p size base o w' E F V :=
  destruct (lemma fd p size base o Hvis) as (w' & E & F);
  [apply Hb; simpl; tauto|];
  pose proof (effect_visible _ _ _ _ F Hvis) as V;
  rewrite E; cbv beta iota.

Ltac kept F1 F2 F3 F4 F5 :=
  destruct F1 as (? & ? & ?), F2 as (? & ? & ?), F3 as (? & ? & ?),
           F4 as (? & ? & ?), F5 as (? & ? & ?);
  cbn [record vmas fds log] in *; congruence.

Lemma axi3_body_step fd p base w0 held k leds w :
  let win := window fd p Axi3.H2F_LW_SIZE base in
  loop_inv win 0 [0; 4; 8; 12] w0 held k leds w ->
  exists leds' w',
    Axi3.body (register_pointer p 0) (register_pointer p 4)
      (register_pointer p 8) (register_pointer p 12) leds w
    = (w', Next leds') /\
    loop_inv win 0 [0; 4; 8; 12] w0 held (S k) leds' w'.
Proof.
  intros win (Hleds & Hvis & Hfds & Hvmas & Hpolled).
  assert (Hb : forall o, In o [0; 4; 8; 12] -> in_bounds Axi3.H2F_LW_SIZE o).
  { intros o Ho. unfold in_bounds, Axi3.H2F_LW_SIZE. simpl in Ho. lia. }
  unfold Axi3.body, bind.
  access (fun fd p s b o => write32_effect w fd p s b o (next_leds leds))
         Hvis Hb fd p Axi3.H2F_LW_SIZE base 0 w1 E1 F1 V1.
  destruct (read32_effect w1 fd p Axi3.H2F_LW_SIZE base 0 V1)
    as (r0 & w2 & E2 & F2); [apply Hb; simpl; tauto|].
  pose proof (effect_visible _ _ _ _ F2 V1) as V2.
  rewrite E2; cbv beta iota.
  destruct (read32_effect w2 fd p Axi3.H2F_LW_SIZE base 4 V2)
    as (r1 & w3 & E3 & F3); [apply Hb; simpl; tauto|].
  pose proof (effect_visible _ _ _ _ F3 V2) as V3.
  rewrite E3; cbv beta iota.
  destruct (read32_effect w3 fd p Axi3.H2F_LW_SIZE base 8 V3)
    as (r2 & w4 & E4 & F4); [apply Hb; simpl; tauto|].
  pose proof (effect_visible _ _ _ _ F4 V3) as V4.
  rewrite E4; cbv beta iota.
  destruct (read32_effect w4 fd p Axi3.H2F_LW_SIZE base 12 V4)
    as (r3 & w5 & E5 & F5); [apply Hb; simpl; tauto|].
  pose proof (effect_visible _ _ _ _ F5 V4) as V5.
  rewrite E5; cbv beta iota.
  unfold printf, fflush_stdout, usleep, ret; cbv beta iota.
  eexists. eexists. split; [reflexivity|].
  split; [rewrite Hleds; apply next_leds_of_nat|].
  split; [cbn [record vmas]; exact V5|].
  split; [rewrite <- Hfds; kept F1 F2 F3 F4 F5|].
  split; [rewrite <- Hvmas; kept F1 F2 F3 F4 F5|].
  apply (polled_step _ _ _ _ _ w
           [EvUsleep 10000; EvFflush; EvPrintf "0x%08X" [r3];
            EvPrintf "0x%08X | " [r2]; EvPrintf "0x%08X | " [r1];
            EvPrintf "0x%08X | " [r0]; EvPrintf cr [];
            EvLoad (p + 12) r3; EvLoad (p + 8) r2; EvLoad (p + 4) r1;
            EvLoad (p + 0) r0; EvStore (p + 0) (next_leds leds)]);
    [exact Hpolled| | |].
  - destruct F1 as (_ & _ & L1), F2 as (_ & _ & L2), F3 as (_ & _ & L3),
             F4 as (_ & _ & L4), F5 as (_ & _ & L5).
    cbn [record log]. rewrite L5, L4, L3, L2, L1. reflexivity.
  - simpl. rewrite Hleds, next_leds_of_nat. reflexivity.
  - simpl. repeat constructor; eexists; (split; [|reflexivity]); simpl; tauto.
Qed.

Lemma gpigpo_body_step fd p base w0 held k leds w :
  let win := window fd p GpiGpo.FPGA_MANAGER_SIZE base in
  loop_inv win 16 [0; 4; 16; 20] w0 held k leds w ->
  exists leds' w',
    GpiGpo.body (register_pointer p GpiGpo.FPGA_MANAGER_STAT)
      (register_pointer p GpiGpo.FPGA_MANAGER_CTRL)
      (register_pointer p GpiGpo.FPGA_MANAGER_GPO)
      (register_pointer p GpiGpo.FPGA_MANAGER_GPI) leds w
    = (w', Next leds') /\
    loop_inv win 16 [0; 4; 16; 20] w0 held (S k) leds' w'.
Proof.
  intros win (Hleds & Hvis & Hfds & Hvmas & Hpolled).
  assert (Hb : forall o, In o [0; 4; 16; 20] ->
                         in_bounds GpiGpo.FPGA_MANAGER_SIZE o).
  { intros o Ho. unfold in_bounds, GpiGpo.FPGA_MANAGER_SIZE.
    simpl in Ho. lia. }
  unfold GpiGpo.body, bind, GpiGpo.FPGA_MANAGER_STAT,
    GpiGpo.FPGA_MANAGER_CTRL, GpiGpo.FPGA_MANAGER_GPO,
    GpiGpo.FPGA_MANAGER_GPI.
  access (fun fd p s b o => write32_effect w fd p s b o (next_leds leds))
         Hvis Hb fd p GpiGpo.FPGA_MANAGER_SIZE base 16 w1 E1 F1 V1.
  unfold printf at 1; cbv beta iota.
  assert (V1' : visible (vmas (record (EvPrintf cr []) w1)) win = true)
    by exact V1.
  destruct (read32_effect _ fd p GpiGpo.FPGA_MANAGER_SIZE base 0 V1')
    as (r0 & w2 & E2 & F2); [apply Hb; simpl; tauto|].
  pose proof (effect_visible _ _ _ _ F2 V1') as V2.
  rewrite E2; cbv beta iota. unfold printf at 1; cbv beta iota.
  assert (V2' : visible
                  (vmas (record (EvPrintf "0x%08X | " [r0]) w2)) win = true)
    by exact V2.
  destruct (read32_effect _ fd p GpiGpo.FPGA_MANAGER_SIZE base 4 V2')
    as (r1 & w3 & E3 & F3); [apply Hb; simpl; tauto|].
  pose proof (effect_visible _ _ _ _ F3 V2') as V3.
  rewrite E3; cbv beta iota. unfold printf at 1; cbv beta iota.
  assert (V3' : visible
                  (vmas (record (EvPrintf "0x%08X | " [r1]) w3)) win = true)
    by exact V3.
  destruct (read32_effect _ fd p GpiGpo.FPGA_MANAGER_SIZE base 20 V3')
    as (r2 & w4 & E4 & F4); [apply Hb; simpl; tauto|].
  pose proof (effect_visible _ _ _ _ F4 V3') as V4.
  rewrite E4; cbv beta iota. unfold printf at 1; cbv beta iota.
  assert (V4' : visible
                  (vmas (record (EvPrintf "0x%08X | " [r2]) w4)) win = true)
    by exact V4.
  destruct (read32_effect _ fd p GpiGpo.FPGA_MANAGER_SIZE base 16 V4')
    as (r3 & w5 & E5 & F5); [apply Hb; simpl; tauto|].
  pose proof (effect_visible _ _ _ _ F5 V4') as V5.
  rewrite E5; cbv beta iota.
  unfold printf, fflush_stdout, usleep, ret; cbv beta iota.
  eexists. eexists. split; [reflexivity|].
  split; [rewrite Hleds; apply next_leds_of_nat|].
  split; [cbn [record vmas]; exact V5|].
  split; [rewrite <- Hfds; kept F1 F2 F3 F4 F5|].
  split; [rewrite <- Hvmas; kept F1 F2 F3 F4 F5|].
  apply (polled_step _ _ _ _ _ w
           [EvUsleep 100000; EvFflush; EvPrintf "0x%08X" [r3];
            EvLoad (p + 16) r3; EvPrintf "0x%08X | " [r2];
            EvLoad (p + 20) r2; EvPrintf "0x%08X | " [r1];
            EvLoad (p + 4) r1; EvPrintf "0x%08X | " [r0];
            EvLoad (p + 0) r0; EvPrintf cr [];
            EvStore (p + 16) (next_leds leds)]);
    [exact Hpolled| | |].
  - destruct F1 as (_ & _ & L1), F2 as (_ & _ & L2), F3 as (_ & _ & L3),
             F4 as (_ & _ & L4), F5 as (_ & _ & L5).
    cbn [record log]. rewrite L5. cbn [record log app]. rewrite L4.
    cbn [record log app]. rewrite L3. cbn [record log app]. rewrite L2.
    cbn [record log app]. rewrite L1. reflexivity.
  - simpl. rewrite Hleds, next_leds_of_nat. reflexivity.
  - simpl. repeat constructor; eexists; (split; [|reflexivity]); simpl; tauto.
Qed.

(** Once the window is mapped, [main] is in its loop for good: however
    much fuel it is given it is still running when the fuel is spent, it
    holds the descriptor and the mapping, and what it has added to the
    log is described by [polled]. *)
Lemma axi3_main_runs n w fd a :
  hd None (open_answers w) = Some fd ->
  hd None (mmap_answers w) = Some a ->
  exists w',
    Axi3.main n w = (w', Running) /\
    fds w' = Z.of_N fd :: fds w /\
    vmas w' = window (Z.of_N fd) (Z.of_N a) Axi3.H2F_LW_SIZE
                Axi3.H2F_LW_BASE :: vmas w /\
    polled (Z.of_N a) 0 [0; 4; 8; 12] w n w'.
Proof.
  intros Ho Hm. unfold Axi3.main. unfold bind at 1.
  rewrite (map_window_ok _ _ _ fd a) by assumption. cbv beta iota.
  unfold bind at 1. unfold printf. cbv beta iota. cbn [fst snd].
  set (wh := record _ _).
  match goal with
  | |- context [while_true n ?b 0] =>
      destruct (while_true_running
                  (loop_inv (window (Z.of_N fd) (Z.of_N a) Axi3.H2F_LW_SIZE
                               Axi3.H2F_LW_BASE) 0 [0; 4; 8; 12] w wh)
                  b (axi3_body_step _ _ _ _ _) n 0%nat 0 wh)
        as (s' & w' & Hloop & HI)
  end.
  { split; [reflexivity|]. split; [apply visible_head|].
    split; [reflexivity|]. split; [reflexivity|].
    eexists (_ :: _ :: _ :: nil). split; [reflexivity|].
    split; [reflexivity|constructor]. }
  exists w'. unfold bind. rewrite Hloop.
  destruct HI as (_ & _ & Hfds & Hvmas & Hpolled).
  split; [reflexivity|]. split; [exact Hfds|]. split; [exact Hvmas|].
  exact Hpolled.
Qed.

Lemma gpigpo_main_runs n w fd a :
  hd None (open_answers w) = Some fd ->
  hd None (mmap_answers w) = Some a ->
  exists w',
    GpiGpo.main n w = (w', Running) /\
    fds w' = Z.of_N fd :: fds w /\
    vmas w' = window (Z.of_N fd) (Z.of_N a) GpiGpo.FPGA_MANAGER_SIZE
                GpiGpo.FPGA_MANAGER_BASE :: vmas w /\
    polled (Z.of_N a) 16 [0; 4; 16; 20] w n w'.
Proof.
  intros Ho Hm. unfold GpiGpo.main. unfold bind at 1.
  rewrite (map_window_ok _ _ _ fd a) by assumption. cbv beta iota.
  unfold bind at 1. unfold printf. cbv beta iota. cbn [fst snd].
  set (wh := record _ _).
  match goal with
  | |- context [while_true n ?b 0] =>
      destruct (while_true_running
                  (loop_inv (window (Z.of_N fd) (Z.of_N a)
                               GpiGpo.FPGA_MANAGER_SIZE
                               GpiGpo.FPGA_MANAGER_BASE) 16 [0; 4; 16; 20]
                     w wh)
                  b (gpigpo_body_step _ _ _ _ _) n 0%nat 0 wh)
        as (s' & w' & Hloop & HI)
  end.
  { split; [reflexivity|]. split; [apply visible_head|].
    split; [reflexivity|]. split; [reflexivity|].
    eexists (_ :: _ :: _ :: nil). split; [reflexivity|].
    split; [reflexivity|constructor]. }
  exists w'. unfold bind. rewrite Hloop.
  destruct HI as (_ & _ & Hfds & Hvmas & Hpolled).
  split; [reflexivity|]. split; [exact Hfds|]. split; [exact Hvmas|].
  exact Hpolled.
Qed.

(** C10.  Once the window is mapped, the stores of each program are one
    per iteration, all to its output register (reg0, respectively GPO),
    and the value stored in iteration [k] (counting from 1) is
    [k mod 256]: 1 first, then up by one to 0xFF, then 0 and up again.
    Every value written lies between 0 and 0xFF. *)
Theorem led_counter_stays_in_byte_range n w fd a :
  hd None (open_answers w) = Some fd ->
  hd None (mmap_answers w) = Some a ->
  exists new1 new2,
    log (fst (Axi3.main n w)) = new1 ++ log w /\
    log (fst (GpiGpo.main n w)) = new2 ++ log w /\
    store_events new1 =
      rev (map (fun k => (Z.of_N a + 0, Z.of_nat k mod 256)) (seq 1 n)) /\
    store_events new2 =
      rev (map (fun k => (Z.of_N a + GpiGpo.FPGA_MANAGER_GPO,
                          Z.of_nat k mod 256)) (seq 1 n)) /\
    Forall (fun e => 0 <= snd e <= 0xFF) (store_events new1) /\
    Forall (fun e => 0 <= snd e <= 0xFF) (store_events new2).
Proof.
  intros Ho Hm.
  destruct (axi3_main_runs n w fd a Ho Hm)
    as (w1 & E1 & _ & _ & new1 & Hlog1 & Hst1 & _).
  destruct (gpigpo_main_runs n w fd a Ho Hm)
    as (w2 & E2 & _ & _ & new2 & Hlog2 & Hst2 & _).
  exists new1, new2. rewrite E1, E2. cbn [fst].
  assert (Hrev : forall q : Z, map (fun v => (q, v)) (counted n) =
            rev (map (fun k => (q, Z.of_nat k mod 256)) (seq 1 n))).
  { intros q. unfold counted. rewrite <- map_rev, map_map, map_rev.
    reflexivity. }
  assert (Hrange : forall q : Z,
            Forall (fun e : Z * Z => 0 <= snd e <= 255)
                   (map (fun v => (q, v)) (counted n))).
  { intros q. apply Forall_map. simpl. apply counted_range. }
  repeat split; try assumption.
  - rewrite Hst1. apply Hrev.
  - rewrite Hst2. apply Hrev.
  - rewrite Hst1. apply Hrange.
  - rewrite Hst2. apply Hrange.
Qed.

Lemma led_counter_stays_in_byte_range_witness :
  exists new1 new2,
    log (fst (Axi3.main 300 w_ok)) = new1 ++ log w_ok /\
    log (fst (GpiGpo.main 300 w_ok)) = new2 ++ log w_ok /\
    store_events new1 =
      rev (map (fun k => (65536 + 0, Z.of_nat k mod 256)) (seq 1 300)) /\
    store_events new2 =
      rev (map (fun k => (65536 + GpiGpo.FPGA_MANAGER_GPO,
                          Z.of_nat k mod 256)) (seq 1 300)) /\
    Forall (fun e => 0 <= snd e <= 0xFF) (store_events new1) /\
    Forall (fun e => 0 <= snd e <= 0xFF) (store_events new2).
Proof.
  apply (led_counter_stays_in_byte_range 300 w_ok 3%N 65536%N);
    reflexivity.
Defined.

(** The counter around its wrap, read off a run of 257 iterations:
    iteration 255 writes 0xFF, iteration 256 writes 0, iteration 257
    writes 1 (newest first). *)
Example counter_wraps_after_0xFF :
  firstn 3 (map snd (store_events (log (fst (Axi3.main 257 w_ok)))))
  = [1; 0; 255] /\
  last (map snd (store_events (log (fst (Axi3.main 257 w_ok))))) = Some 1.
Proof. vm_compute. split; reflexivity. Qed.

(** C8.  Every register offset of the two programs lies within its
    window, [offset + 4 <= length], and is a multiple of 4: the four
    offsets 0, 4, 8, 12 in the 0x00200000-byte bridge window and the four
    offsets 0x00, 0x04, 0x10, 0x14 in the 0x1C-byte FPGA manager window.
    And every load and store that a program performs, in any number of
    iterations, is at the mapped base plus one of these offsets. *)
Theorem register_offsets_in_bounds_and_aligned n w fd a :
  hd None (open_answers w) = Some fd ->
  hd None (mmap_answers w) = Some a ->
  Forall (fun o => in_bounds Axi3.H2F_LW_SIZE o /\ o mod 4 = 0)
         [0; 4; 8; 12] /\
  Forall (fun o => in_bounds GpiGpo.FPGA_MANAGER_SIZE o /\ o mod 4 = 0)
         [GpiGpo.FPGA_MANAGER_STAT; GpiGpo.FPGA_MANAGER_CTRL;
          GpiGpo.FPGA_MANAGER_GPO; GpiGpo.FPGA_MANAGER_GPI] /\
  exists new1 new2,
    log (fst (Axi3.main n w)) = new1 ++ log w /\
    log (fst (GpiGpo.main n w)) = new2 ++ log w /\
    Forall (fun addr => exists o,
              addr = register_pointer (Z.of_N a) o /\
              in_bounds Axi3.H2F_LW_SIZE o /\ o mod 4 = 0)
           (access_addrs new1) /\
    Forall (fun addr => exists o,
              addr = register_pointer (Z.of_N a) o /\
              in_bounds GpiGpo.FPGA_MANAGER_SIZE o /\ o mod 4 = 0)
           (access_addrs new2).
Proof.
  intros Ho Hm.
  assert (H1 : Forall (fun o => in_bounds Axi3.H2F_LW_SIZE o /\ o mod 4 = 0)
                      [0; 4; 8; 12]).
  { repeat constructor; vm_compute; discriminate. }
  assert (H2 : Forall (fun o => in_bounds GpiGpo.FPGA_MANAGER_SIZE o /\
                                o mod 4 = 0) [0; 4; 16; 20]).
  { repeat constructor; vm_compute; discriminate. }
  split; [exact H1|]. split; [exact H2|].
  destruct (axi3_main_runs n w fd a Ho Hm)
    as (w1 & E1 & _ & _ & new1 & Hlog1 & _ & Hacc1).
  destruct (gpigpo_main_runs n w fd a Ho Hm)
    as (w2 & E2 & _ & _ & new2 & Hlog2 & _ & Hacc2).
  exists new1, new2. rewrite E1, E2. cbn [fst].
  split; [exact Hlog1|]. split; [exact Hlog2|].
  rewrite List.Forall_forall in H1, H2. split.
  - eapply Forall_impl; [exact Hacc1|].
    intros addr (o & Hin & ->). exists o. split; [reflexivity|].
    apply H1, Hin.
  - eapply Forall_impl; [exact Hacc2|].
    intros addr (o & Hin & ->). exists o. split; [reflexivity|].
    apply H2, Hin.
Qed.

Lemma register_offsets_in_bounds_and_aligned_witness :
  Forall (fun o => in_bounds Axi3.H2F_LW_SIZE o /\ o mod 4 = 0)
         [0; 4; 8; 12] /\
  Forall (fun o => in_bounds GpiGpo.FPGA_MANAGER_SIZE o /\ o mod 4 = 0)
         [GpiGpo.FPGA_MANAGER_STAT; GpiGpo.FPGA_MANAGER_CTRL;
          GpiGpo.FPGA_MANAGER_GPO; GpiGpo.FPGA_MANAGER_GPI] /\
  exists new1 new2,
    log (fst (Axi3.main 2 w_ok)) = new1 ++ log w_ok /\
    log (fst (GpiGpo.main 2 w_ok)) = new2 ++ log w_ok /\
    Forall (fun addr => exists o,
              addr = register_pointer 65536 o /\
              in_bounds Axi3.H2F_LW_SIZE o /\ o mod 4 = 0)
           (access_addrs new1) /\
    Forall (fun addr => exists o,
              addr = register_pointer 65536 o /\
              in_bounds GpiGpo.FPGA_MANAGER_SIZE o /\ o mod 4 = 0)
           (access_addrs new2).
Proof.
  apply (register_offsets_in_bounds_and_aligned 2 w_ok 3%N 65536%N);
    reflexivity.
Defined.

(** In [main] the release of the window stands behind [while(true)] and
    is never reached: whatever the platform answers and however long the
    program runs, it has either returned 1 from a failed [open] or [mmap],
    or it is still in its loop. *)
Lemma main_returns_1_or_runs n w :
  (snd (Axi3.main n w) = Exit 1 \/ snd (Axi3.main n w) = Running) /\
  (snd (GpiGpo.main n w) = Exit 1 \/ snd (GpiGpo.main n w) = Running).
Proof.
  destruct (map_window_cases w) as [Ho|[(fd & Ho & Hm)|(fd & a & Ho & Hm)]].
  - split; left; unfold Axi3.main, GpiGpo.main, bind;
      rewrite map_window_open_fails by exact Ho; reflexivity.
  - split; left; unfold Axi3.main, GpiGpo.main, bind;
      rewrite (map_window_mmap_fails _ _ _ fd) by assumption; reflexivity.
  - destruct (axi3_main_runs n w fd a Ho Hm) as (w1 & E1 & _).
    destruct (gpigpo_main_runs n w fd a Ho Hm) as (w2 & E2 & _).
    rewrite E1, E2. split; right; reflexivity.
Qed.

(** ** Each iteration, exactly *)

Lemma word_at_frame m m' a :
  (forall q, a <= q < a + 4 -> peek m q = peek m' q) ->
  word_at m a = word_at m' a.
Proof.
  intros H. unfold word_at, quad, load_bytes.
  rewrite !H by lia. reflexivity.
Qed.

Lemma word_at_store_same m a v :
  0 <= v < 2 ^ 32 -> word_at (store_bytes m (quad a) v) a = v.
Proof. intros Hv. apply load_store_same, Hv. Qed.

Lemma word_at_store_apart m a b v :
  a + 4 <= b \/ b + 4 <= a ->
  word_at (store_bytes m (quad a) v) b = word_at m b.
Proof. intros H. apply load_store_apart, H. Qed.

Lemma peek_store_quad_other m a v q :
  q < a \/ a + 4 <= q -> peek (store_bytes m (quad a) v) q = peek m q.
Proof. intros H. unfold quad. apply peek_store_other; lia. Qed.

Ltac load_register fd p size base Hvis :=
  rewrite (read32_at _ fd p size base)
    by (first [exact Hvis | unfold in_bounds; lia]);
  cbn [record phys vmas fds log open_answers mmap_answers];
  cbv beta iota.

Lemma axi3_body_exact fd p base leds w :
  visible (vmas w) (window fd p Axi3.H2F_LW_SIZE base) = true ->
  let v := next_leds leds in
  let m := store_bytes (phys w) (quad (base + 0)) v in
  Axi3.body (register_pointer p 0) (register_pointer p 4)
    (register_pointer p 8) (register_pointer p 12) leds w =
  (World (open_answers w) (mmap_answers w) (fds w) (vmas w) m
     (EvUsleep 10000 :: EvFflush
      :: EvPrintf "0x%08X" [word_at m (base + 12)]
      :: EvPrintf "0x%08X | " [word_at m (base + 8)]
      :: EvPrintf "0x%08X | " [word_at m (base + 4)]
      :: EvPrintf "0x%08X | " [word_at m (base + 0)]
      :: EvPrintf cr []
      :: EvLoad (p + 12) (word_at m (base + 12))
      :: EvLoad (p + 8) (word_at m (base + 8))
      :: EvLoad (p + 4) (word_at m (base + 4))
      :: EvLoad (p + 0) (word_at m (base + 0))
      :: EvStore (p + 0) v :: log w),
   Next v).
Proof.
  intros Hvis v m. unfold Axi3.body, bind. fold v.
  rewrite (write32_at _ fd p Axi3.H2F_LW_SIZE base)
    by (first [exact Hvis | unfold in_bounds, Axi3.H2F_LW_SIZE; lia]).
  cbv beta iota. fold (quad (base + 0)). fold m.
  unfold Axi3.H2F_LW_SIZE in Hvis.
  do 4 load_register fd p 2097152 base Hvis.
  unfold printf, fflush_stdout, usleep, ret.
  cbn [record phys vmas fds log open_answers mmap_answers].
  reflexivity.
Qed.

Lemma gpigpo_body_exact fd p base leds w :
  visible (vmas w) (window fd p GpiGpo.FPGA_MANAGER_SIZE base) = true ->
  let v := next_leds leds in
  let m := store_bytes (phys w) (quad (base + 16)) v in
  GpiGpo.body (register_pointer p GpiGpo.FPGA_MANAGER_STAT)
    (register_pointer p GpiGpo.FPGA_MANAGER_CTRL)
    (register_pointer p GpiGpo.FPGA_MANAGER_GPO)
    (register_pointer p GpiGpo.FPGA_MANAGER_GPI) leds w =
  (World (open_answers w) (mmap_answers w) (fds w) (vmas w) m
     (EvUsleep 100000 :: EvFflush
      :: EvPrintf "0x%08X" [word_at m (base + 16)]
      :: EvLoad (p + 16) (word_at m (base + 16))
      :: EvPrintf "0x%08X | " [word_at m (base + 20)]
      :: EvLoad (p + 20) (word_at m (base + 20))
      :: EvPrintf "0x%08X | " [word_at m (base + 4)]
      :: EvLoad (p + 4) (word_at m (base + 4))
      :: EvPrintf "0x%08X | " [word_at m (base + 0)]
      :: EvLoad (p + 0) (word_at m (base + 0))
      :: EvPrintf cr []
      :: EvStore (p + 16) v :: log w),
   Next v).
Proof.
  intros Hvis v m.
  unfold GpiGpo.body, bind, GpiGpo.FPGA_MANAGER_STAT,
    GpiGpo.FPGA_MANAGER_CTRL, GpiGpo.FPGA_MANAGER_GPO,
    GpiGpo.FPGA_MANAGER_GPI.
  fold v.
  rewrite (write32_at _ fd p GpiGpo.FPGA_MANAGER_SIZE base)
    by (first [exact Hvis | unfold in_bounds, GpiGpo.FPGA_MANAGER_SIZE; lia]).
  cbv beta iota. fold (quad (base + 16)). fold m.
  unfold GpiGpo.FPGA_MANAGER_SIZE in Hvis.
  unfold printf at 1.
  cbn [record phys vmas fds log open_answers mmap_answers]. cbv beta iota.
  do 3 (load_register fd p 28 base Hvis; unfold printf at 1;
        cbn [record phys vmas fds log open_answers mmap_answers];
        cbv beta iota).
  load_register fd p 28 base Hvis.
  unfold printf, fflush_stdout, usleep, ret.
  cbn [record phys vmas fds log open_answers mmap_answers].
  reflexivity.
Qed.

Lemma exact_step_frame (win : vma) out (wh w : world) v :
  (forall q, q < vm_phys win + out \/ vm_phys win + out + 4 <= q ->
             peek (phys w) q = peek (phys wh) q) ->
  forall q, q < vm_phys win + out \/ vm_phys win + out + 4 <= q ->
            peek (store_bytes (phys w) (quad (vm_phys win + out)) v) q =
            peek (phys wh) q.
Proof.
  intros H q Hq. rewrite peek_store_quad_other by exact Hq. apply H, Hq.
Qed.

(** A word away from the output register still reads, after the store of
    an iteration, as it did when the loop began. *)
Lemma exact_step_input (win : vma) out (wh w : world) v b :
  (forall q, q < vm_phys win + out \/ vm_phys win + out + 4 <= q ->
             peek (phys w) q = peek (phys wh) q) ->
  vm_phys win + out + 4 <= b \/ b + 4 <= vm_phys win + out ->
  word_at (store_bytes (phys w) (quad (vm_phys win + out)) v) b =
  word_at (phys wh) b.
Proof.
  intros H Hb. rewrite word_at_store_apart by exact Hb.
  apply word_at_frame. intros q Hq. apply H. lia.
Qed.

Lemma counter_is_word k : 0 <= Z.of_nat k mod 256 < 2 ^ 32.
Proof. pose proof (Z.mod_pos_bound (Z.of_nat k) 256). lia. Qed.

Lemma axi3_exact_step fd p base wh k leds w :
  let win := window fd p Axi3.H2F_LW_SIZE base in
  let row := axi3_row p (word_at (phys wh) (base + 4))
               (word_at (phys wh) (base + 8))
               (word_at (phys wh) (base + 12)) in
  exact_inv win 0 row wh k leds w ->
  exists leds' w',
    Axi3.body (register_pointer p 0) (register_pointer p 4)
      (register_pointer p 8) (register_pointer p 12) leds w
    = (w', Next leds') /\
    exact_inv win 0 row wh (S k) leds' w'.
Proof.
  intros win row (Hleds & Hvis & Hfds & Hvmas & Hframe & Hreg & Hlog).
  rewrite (axi3_body_exact fd p base leds w Hvis).
  eexists. eexists. split; [reflexivity|].
  assert (Hv : next_leds leds = Z.of_nat (S k) mod 256)
    by (rewrite Hleds; apply next_leds_of_nat).
  cbn [vm_phys win window] in Hframe.
  unfold exact_inv. cbn [vmas fds phys log vm_phys win window].
  rewrite Hv.
  split; [reflexivity|]. split; [exact Hvis|].
  split; [exact Hfds|]. split; [exact Hvmas|].
  split; [apply (exact_step_frame win 0 wh w), Hframe|].
  split; [intros _; apply word_at_store_same, counter_is_word|].
  rewrite counted_S, Hlog. cbn [flat_map]. unfold row at 1, axi3_row.
  rewrite word_at_store_same by apply counter_is_word.
  rewrite !(exact_step_input win 0 wh w)
    by (first [exact Hframe | cbn [vm_phys win window]; lia]).
  reflexivity.
Qed.

Lemma gpigpo_exact_step fd p base wh k leds w :
  let win := window fd p GpiGpo.FPGA_MANAGER_SIZE base in
  let row := gpigpo_row p (word_at (phys wh) (base + 0))
               (word_at (phys wh) (base + 4))
               (word_at (phys wh) (base + 20)) in
  exact_inv win 16 row wh k leds w ->
  exists leds' w',
    GpiGpo.body (register_pointer p GpiGpo.FPGA_MANAGER_STAT)
      (register_pointer p GpiGpo.FPGA_MANAGER_CTRL)
      (register_pointer p GpiGpo.FPGA_MANAGER_GPO)
      (register_pointer p GpiGpo.FPGA_MANAGER_GPI) leds w
    = (w', Next leds') /\
    exact_inv win 16 row wh (S k) leds' w'.
Proof.
  intros win row (Hleds & Hvis & Hfds & Hvmas & Hframe & Hreg & Hlog).
  rewrite (gpigpo_body_exact fd p base leds w Hvis).
  eexists. eexists. split; [reflexivity|].
  assert (Hv : next_leds leds = Z.of_nat (S k) mod 256)
    by (rewrite Hleds; apply next_leds_of_nat).
  cbn [vm_phys win window] in Hframe.
  unfold exact_inv. cbn [vmas fds phys log vm_phys win window].
  rewrite Hv.
  split; [reflexivity|]. split; [exact Hvis|].
  split; [exact Hfds|]. split; [exact Hvmas|].
  split; [apply (exact_step_frame win 16 wh w), Hframe|].
  split; [intros _; apply word_at_store_same, counter_is_word|].
  rewrite counted_S, Hlog. cbn [flat_map]. unfold row at 1, gpigpo_row.
  rewrite word_at_store_same by apply counter_is_word.
  rewrite !(exact_step_input win 16 wh w)
    by (first [exact Hframe | cbn [vm_phys win window]; lia]).
  reflexivity.
Qed.

(** The whole run of each program once the window is mapped: still in
    the loop when the fuel is spent, holding the descriptor and the
    mapping, with the output register as the only physical bytes changed,
    and with a log that is the prologue followed by one row per
    iteration. *)
Lemma axi3_main_exact n w fd a :
  hd None (open_answers w) = Some fd ->
  hd None (mmap_answers w) = Some a ->
  exists w',
    Axi3.main n w = (w', Running) /\
    fds w' = Z.of_N fd :: fds w /\
    vmas w' = window (Z.of_N fd) (Z.of_N a) Axi3.H2F_LW_SIZE
                Axi3.H2F_LW_BASE :: vmas w /\
    (forall q, q < Axi3.H2F_LW_BASE \/ Axi3.H2F_LW_BASE + 4 <= q ->
               peek (phys w') q = peek (phys w) q) /\
    ((0 < n)%nat ->
     word_at (phys w') Axi3.H2F_LW_BASE = Z.of_nat n mod 256) /\
    log w' =
      flat_map (axi3_row (Z.of_N a)
                  (word_at (phys w) (Axi3.H2F_LW_BASE + 4))
                  (word_at (phys w) (Axi3.H2F_LW_BASE + 8))
                  (word_at (phys w) (Axi3.H2F_LW_BASE + 12)))
               (counted n)
      ++ prologue (Z.of_N fd) (Z.of_N a) Axi3.H2F_LW_SIZE Axi3.H2F_LW_BASE
           ("Reg0       | Reg1       | Reg2       | Reg3" ++ nl)
      ++ log w.
Proof.
  intros Ho Hm. unfold Axi3.main. unfold bind at 1.
  rewrite (map_window_ok _ _ _ fd a) by assumption. cbv beta iota.
  unfold bind at 1. unfold printf. cbv beta iota. cbn [fst snd].
  set (wh := record _ _).
  destruct (while_true_running
              (exact_inv (window (Z.of_N fd) (Z.of_N a) Axi3.H2F_LW_SIZE
                            Axi3.H2F_LW_BASE) 0
                 (axi3_row (Z.of_N a)
                    (word_at (phys wh) (Axi3.H2F_LW_BASE + 4))
                    (word_at (phys wh) (Axi3.H2F_LW_BASE + 8))
                    (word_at (phys wh) (Axi3.H2F_LW_BASE + 12))) wh)
              _ (axi3_exact_step _ _ _ wh) n 0%nat 0 wh)
    as (s' & w' & Hloop & HI).
  { split; [reflexivity|]. split; [apply visible_head|].
    split; [reflexivity|]. split; [reflexivity|].
    split; [reflexivity|]. split; [lia|reflexivity]. }
  exists w'. unfold bind. rewrite Hloop.
  destruct HI as (_ & _ & Hfds & Hvmas & Hframe & Hreg & Hlog).
  split; [reflexivity|]. split; [exact Hfds|]. split; [exact Hvmas|].
  split; [|split].
  - intros q Hq. apply Hframe. cbn [vm_phys window]. lia.
  - intros Hn. rewrite <- (Z.add_0_r Axi3.H2F_LW_BASE). apply Hreg, Hn.
  - exact Hlog.
Qed.

Lemma gpigpo_main_exact n w fd a :
  hd None (open_answers w) = Some fd ->
  hd None (mmap_answers w) = Some a ->
  exists w',
    GpiGpo.main n w = (w', Running) /\
    fds w' = Z.of_N fd :: fds w /\
    vmas w' = window (Z.of_N fd) (Z.of_N a) GpiGpo.FPGA_MANAGER_SIZE
                GpiGpo.FPGA_MANAGER_BASE :: vmas w /\
    (forall q, q < GpiGpo.FPGA_MANAGER_BASE + 16 \/
               GpiGpo.FPGA_MANAGER_BASE + 16 + 4 <= q ->
               peek (phys w') q = peek (phys w) q) /\
    ((0 < n)%nat ->
     word_at (phys w') (GpiGpo.FPGA_MANAGER_BASE + 16)
     = Z.of_nat n mod 256) /\
    log w' =
      flat_map (gpigpo_row (Z.of_N a)
                  (word_at (phys w) (GpiGpo.FPGA_MANAGER_BASE + 0))
                  (word_at (phys w) (GpiGpo.FPGA_MANAGER_BASE + 4))
                  (word_at (phys w) (GpiGpo.FPGA_MANAGER_BASE + 20)))
               (counted n)
      ++ prologue (Z.of_N fd) (Z.of_N a) GpiGpo.FPGA_MANAGER_SIZE
           GpiGpo.FPGA_MANAGER_BASE
           ("Status     | Control    | GPI        | GPO" ++ nl)
      ++ log w.
Proof.
  intros Ho Hm. unfold GpiGpo.main. unfold bind at 1.
  rewrite (map_window_ok _ _ _ fd a) by assumption. cbv beta iota.
  unfold bind at 1. unfold printf. cbv beta iota. cbn [fst snd].
  set (wh := record _ _).
  destruct (while_true_running
              (exact_inv (window (Z.of_N fd) (Z.of_N a)
                            GpiGpo.FPGA_MANAGER_SIZE
                            GpiGpo.FPGA_MANAGER_BASE) 16
                 (gpigpo_row (Z.of_N a)
                    (word_at (phys wh) (GpiGpo.FPGA_MANAGER_BASE + 0))
                    (word_at (phys wh) (GpiGpo.FPGA_MANAGER_BASE + 4))
                    (word_at (phys wh) (GpiGpo.FPGA_MANAGER_BASE + 20))) wh)
              _ (gpigpo_exact_step _ _ _ wh) n 0%nat 0 wh)
    as (s' & w' & Hloop & HI).
  { split; [reflexivity|]. split; [apply visible_head|].
    split; [reflexivity|]. split; [reflexivity|].
    split; [reflexivity|]. split; [lia|reflexivity]. }
  exists w'. unfold bind. rewrite Hloop.
  destruct HI as (_ & _ & Hfds & Hvmas & Hframe & Hreg & Hlog).
  split; [reflexivity|]. split; [exact Hfds|]. split; [exact Hvmas|].
  split; [|split].
  - intros q Hq. apply Hframe. cbn [vm_phys window]. lia.
  - exact Hreg.
  - exact Hlog.
Qed.

(** ** Readings of the trace *)

Lemma sleep_total_app l1 l2 :
  sleep_total (l1 ++ l2) = sleep_total l1 + sleep_total l2.
Proof.
  induction l1 as [|e l1 IH]; [reflexivity|].
  destruct e; simpl; rewrite ?IH; lia.
Qed.

Lemma syscalls_app l1 l2 : syscalls (l1 ++ l2) = syscalls l1 ++ syscalls l2.
Proof.
  induction l1 as [|e l1 IH]; [reflexivity|].
  simpl. destruct (is_syscall e); simpl; rewrite IH; reflexivity.
Qed.

Lemma load_events_app l1 l2 :
  load_events (l1 ++ l2) = load_events l1 ++ load_events l2.
Proof.
  induction l1 as [|e l1 IH]; [reflexivity|].
  destruct e; simpl; rewrite ?IH; reflexivity.
Qed.

Lemma counted_length n : length (counted n) = n.
Proof. unfold counted. now rewrite length_rev, length_map, length_seq. Qed.

(** The readings of [n] rows, from the readings of one row. *)
Lemma rows_readings (row : Z -> list event) (delay : Z) (l : list Z) :
  (forall v, syscalls (row v) = [] /\
             length (store_events (row v)) = 1%nat /\
             length (load_events (row v)) = 4%nat /\
             sleep_total (row v) = delay) ->
  syscalls (flat_map row l) = [] /\
  length (store_events (flat_map row l)) = length l /\
  length (load_events (flat_map row l)) = (4 * length l)%nat /\
  sleep_total (flat_map row l) = delay * Z.of_nat (length l).
Proof.
  intros Hrow. induction l as [|v l (IH1 & IH2 & IH3 & IH4)].
  - simpl. repeat split; lia.
  - destruct (Hrow v) as (H1 & H2 & H3 & H4). cbn [flat_map].
    rewrite syscalls_app, store_events_app, load_events_app,
      sleep_total_app, !length_app, H1, H2, H3, H4, IH1, IH2, IH3, IH4.
    cbn [length]. repeat split; lia.
Qed.

Lemma axi3_row_readings p r1 r2 r3 v :
  syscalls (axi3_row p r1 r2 r3 v) = [] /\
  length (store_events (axi3_row p r1 r2 r3 v)) = 1%nat /\
  length (load_events (axi3_row p r1 r2 r3 v)) = 4%nat /\
  sleep_total (axi3_row p r1 r2 r3 v) = 10000.
Proof. repeat split. Qed.

Lemma gpigpo_row_readings p st ct gi v :
  syscalls (gpigpo_row p st ct gi v) = [] /\
  length (store_events (gpigpo_row p st ct gi v)) = 1%nat /\
  length (load_events (gpigpo_row p st ct gi v)) = 4%nat /\
  sleep_total (gpigpo_row p st ct gi v) = 100000.
Proof. repeat split. Qed.

(** ** What a whole run does *)

Lemma without_loads_app l1 l2 :
  without_loads (l1 ++ l2) = without_loads l1 ++ without_loads l2.
Proof.
  induction l1 as [|e l1 IH]; [reflexivity|].
  destruct e; simpl; rewrite ?IH; reflexivity.
Qed.

Lemma axi3_rows_without_loads p r1 r2 r3 l :
  without_loads (flat_map (axi3_row p r1 r2 r3) l) =
  flat_map (axi3_row_calls p r1 r2 r3) l.
Proof.
  induction l as [|v l IH]; [reflexivity|].
  cbn [flat_map]. rewrite without_loads_app, IH. reflexivity.
Qed.

(** X1.  Once [/dev/mem] is open and the bridge is mapped, a run of
    axi3_h2f_lw.c is still in its loop after any number [n] of iterations
    and, its loads left aside, has logged exactly this: [open], [mmap],
    the header, and then in iteration [k] the store of [k mod 256] to
    reg0, a carriage return and the four columns, the flush and the sleep
    of 10000 microseconds.  On a store that echoes, the reg0 column shows
    the counter just written and the other three columns show what reg1
    to reg3 held before the run.  Nothing is said of when or how often
    the registers are loaded. *)
Theorem axi3_run_trace n w fd a :
  hd None (open_answers w) = Some fd ->
  hd None (mmap_answers w) = Some a ->
  snd (Axi3.main n w) = Running /\
  exists new,
    log (fst (Axi3.main n w)) = new ++ log w /\
    without_loads new =
      flat_map (axi3_row_calls (Z.of_N a)
                  (word_at (phys w) (Axi3.H2F_LW_BASE + 4))
                  (word_at (phys w) (Axi3.H2F_LW_BASE + 8))
                  (word_at (phys w) (Axi3.H2F_LW_BASE + 12)))
               (counted n)
      ++ prologue (Z.of_N fd) (Z.of_N a) Axi3.H2F_LW_SIZE Axi3.H2F_LW_BASE
           ("Reg0       | Reg1       | Reg2       | Reg3" ++ nl).
Proof.
  intros Ho Hm.
  destruct (axi3_main_exact n w fd a Ho Hm) as (w' & E & _ & _ & _ & _ & Hlog).
  rewrite E. split; [reflexivity|]. cbn [fst].
  eexists. split; [rewrite Hlog, app_assoc; reflexivity|].
  rewrite without_loads_app, axi3_rows_without_loads. reflexivity.
Qed.

Lemma axi3_run_trace_witness :
  snd (Axi3.main 2 w_ok) = Running /\
  exists new,
    log (fst (Axi3.main 2 w_ok)) = new ++ log w_ok /\
    without_loads new =
      flat_map (axi3_row_calls 65536
                  (word_at (phys w_ok) (Axi3.H2F_LW_BASE + 4))
                  (word_at (phys w_ok) (Axi3.H2F_LW_BASE + 8))
                  (word_at (phys w_ok) (Axi3.H2F_LW_BASE + 12)))
               (counted 2)
      ++ prologue 3 65536 Axi3.H2F_LW_SIZE Axi3.H2F_LW_BASE
           ("Reg0       | Reg1       | Reg2       | Reg3" ++ nl).
Proof.
  apply (axi3_run_trace 2 w_ok 3%N 65536%N); reflexivity.
Defined.

(** X2.  Once [/dev/mem] is open and the FPGA manager is mapped, a run of
    gpigpo.c is still in its loop after any number [n] of iterations and
    has logged exactly this: [open], [mmap], the header, and then in
    iteration [k] the store of [k mod 256] to GPO, a carriage return, and
    status, control, GPI and GPO each loaded and printed in turn, the
    flush and the sleep of 100000 microseconds.  On a store that echoes,
    the GPO column shows the counter just written and the other three
    show what the registers held before the run. *)
Theorem gpigpo_run_trace n w fd a :
  hd None (open_answers w) = Some fd ->
  hd None (mmap_answers w) = Some a ->
  snd (GpiGpo.main n w) = Running /\
  log (fst (GpiGpo.main n w)) =
    flat_map (gpigpo_row (Z.of_N a)
                (word_at (phys w) (GpiGpo.FPGA_MANAGER_BASE + 0))
                (word_at (phys w) (GpiGpo.FPGA_MANAGER_BASE + 4))
                (word_at (phys w) (GpiGpo.FPGA_MANAGER_BASE + 20)))
             (counted n)
    ++ prologue (Z.of_N fd) (Z.of_N a) GpiGpo.FPGA_MANAGER_SIZE
         GpiGpo.FPGA_MANAGER_BASE
         ("Status     | Control    | GPI        | GPO" ++ nl)
    ++ log w.
Proof.
  intros Ho Hm.
  destruct (gpigpo_main_exact n w fd a Ho Hm)
    as (w' & E & _ & _ & _ & _ & Hlog).
  rewrite E. split; [reflexivity|exact Hlog].
Qed.

Lemma gpigpo_run_trace_witness :
  snd (GpiGpo.main 2 w_ok) = Running /\
  log (fst (GpiGpo.main 2 w_ok)) =
    flat_map (gpigpo_row 65536
                (word_at (phys w_ok) (GpiGpo.FPGA_MANAGER_BASE + 0))
                (word_at (phys w_ok) (GpiGpo.FPGA_MANAGER_BASE + 4))
                (word_at (phys w_ok) (GpiGpo.FPGA_MANAGER_BASE + 20)))
             (counted 2)
    ++ prologue 3 65536 GpiGpo.FPGA_MANAGER_SIZE GpiGpo.FPGA_MANAGER_BASE
         ("Status     | Control    | GPI        | GPO" ++ nl)
    ++ log w_ok.
Proof.
  apply (gpigpo_run_trace 2 w_ok 3%N 65536%N); reflexivity.
Defined.

Lemma main_failure_keeps_memory n w :
  hd None (open_answers w) = None \/ hd None (mmap_answers w) = None ->
  phys (fst (Axi3.main n w)) = phys w /\
  phys (fst (GpiGpo.main n w)) = phys w.
Proof.
  intros Hfail.
  destruct (map_window_cases w) as [Ho|[(fd & Ho & Hm)|(fd & a & Ho & Hm)]].
  - split; unfold Axi3.main, GpiGpo.main, bind;
      rewrite map_window_open_fails by exact Ho; reflexivity.
  - split; unfold Axi3.main, GpiGpo.main, bind;
      rewrite (map_window_mmap_fails _ _ _ fd) by assumption; reflexivity.
  - destruct Hfail; congruence.
Qed.

(** X3.  Whatever the platform answers and however long a program runs,
    the only physical bytes it ever changes are the four of its output
    register: reg0 at 0xFF200000 for axi3_h2f_lw.c, GPO at
    0xFF706000 + 0x10 for gpigpo.c.  Every other byte is as it was. *)
Theorem only_the_output_register_is_written n w q :
  (q < Axi3.H2F_LW_BASE \/ Axi3.H2F_LW_BASE + 4 <= q ->
   peek (phys (fst (Axi3.main n w))) q = peek (phys w) q) /\
  (q < GpiGpo.FPGA_MANAGER_BASE + GpiGpo.FPGA_MANAGER_GPO \/
   GpiGpo.FPGA_MANAGER_BASE + GpiGpo.FPGA_MANAGER_GPO + 4 <= q ->
   peek (phys (fst (GpiGpo.main n w))) q = peek (phys w) q).
Proof.
  destruct (map_window_cases w) as [Ho|[(fd & Ho & Hm)|(fd & a & Ho & Hm)]].
  - destruct (main_failure_keeps_memory n w) as (-> & ->); auto.
  - destruct (main_failure_keeps_memory n w) as (-> & ->); auto.
  - destruct (axi3_main_exact n w fd a Ho Hm)
      as (w1 & E1 & _ & _ & Hf1 & _).
    destruct (gpigpo_main_exact n w fd a Ho Hm)
      as (w2 & E2 & _ & _ & Hf2 & _).
    rewrite E1, E2. cbn [fst]. split; intros Hq.
    + apply Hf1, Hq.
    + apply Hf2, Hq.
Qed.

Lemma only_the_output_register_is_written_witness :
  peek (phys (fst (Axi3.main 3 w_ok))) (Axi3.H2F_LW_BASE + 4)
  = peek (phys w_ok) (Axi3.H2F_LW_BASE + 4) /\
  peek (phys (fst (GpiGpo.main 3 w_ok))) GpiGpo.FPGA_MANAGER_BASE
  = peek (phys w_ok) GpiGpo.FPGA_MANAGER_BASE.
Proof.
  split.
  - apply (proj1 (only_the_output_register_is_written 3 w_ok
                    (Axi3.H2F_LW_BASE + 4))).
    right. apply Z.le_refl.
  - apply (proj2 (only_the_output_register_is_written 3 w_ok
                    GpiGpo.FPGA_MANAGER_BASE)).
    left. unfold GpiGpo.FPGA_MANAGER_GPO. lia.
Defined.

(** X4.  After [n >= 1] iterations the output register holds the counter
    of the last iteration: a further read of reg0 (of GPO, in gpigpo.c)
    through the window returns [n mod 256]. *)
Theorem output_register_reads_back_counter n w fd a :
  hd None (open_answers w) = Some fd ->
  hd None (mmap_answers w) = Some a ->
  (0 < n)%nat ->
  snd (read32 (register_pointer (Z.of_N a) 0) (fst (Axi3.main n w)))
  = Next (Z.of_nat n mod 256) /\
  snd (read32 (register_pointer (Z.of_N a) GpiGpo.FPGA_MANAGER_GPO)
         (fst (GpiGpo.main n w)))
  = Next (Z.of_nat n mod 256).
Proof.
  intros Ho Hm Hn.
  destruct (axi3_main_exact n w fd a Ho Hm)
    as (w1 & E1 & _ & Hv1 & _ & Hr1 & _).
  destruct (gpigpo_main_exact n w fd a Ho Hm)
    as (w2 & E2 & _ & Hv2 & _ & Hr2 & _).
  rewrite E1, E2. cbn [fst]. split.
  - rewrite (read32_at w1 (Z.of_N fd) (Z.of_N a) Axi3.H2F_LW_SIZE
               Axi3.H2F_LW_BASE).
    + cbn [snd]. f_equal. rewrite <- (Hr1 Hn).
      unfold word_at, quad. now rewrite Z.add_0_r.
    + rewrite Hv1. apply visible_head.
    + unfold in_bounds, Axi3.H2F_LW_SIZE. lia.
  - rewrite (read32_at w2 (Z.of_N fd) (Z.of_N a) GpiGpo.FPGA_MANAGER_SIZE
               GpiGpo.FPGA_MANAGER_BASE).
    + cbn [snd]. f_equal. apply (Hr2 Hn).
    + rewrite Hv2. apply visible_head.
    + unfold in_bounds, GpiGpo.FPGA_MANAGER_SIZE, GpiGpo.FPGA_MANAGER_GPO.
      lia.
Qed.

Lemma output_register_reads_back_counter_witness :
  snd (read32 (register_pointer 65536 0) (fst (Axi3.main 260 w_ok)))
  = Next (Z.of_nat 260 mod 256) /\
  snd (read32 (register_pointer 65536 GpiGpo.FPGA_MANAGER_GPO)
         (fst (GpiGpo.main 260 w_ok)))
  = Next (Z.of_nat 260 mod 256).
Proof.
  apply (output_register_reads_back_counter 260 w_ok 3%N 65536%N).
  - reflexivity.
  - reflexivity.
  - lia.
Defined.

(** X5.  Once the window is mapped neither program ever gives it back.
    After any number of iterations it is still in its loop, it holds the
    descriptor and the mapping, and the only calls on descriptors and
    mappings in its log are the one [open] and the one [mmap]: [munmap]
    and [close], which follow the loop in the source, are never called. *)
Theorem window_is_never_released n w fd a :
  hd None (open_answers w) = Some fd ->
  hd None (mmap_answers w) = Some a ->
  (snd (Axi3.main n w) = Running /\
   fds (fst (Axi3.main n w)) = Z.of_N fd :: fds w /\
   vmas (fst (Axi3.main n w)) =
     window (Z.of_N fd) (Z.of_N a) Axi3.H2F_LW_SIZE Axi3.H2F_LW_BASE
     :: vmas w /\
   exists new,
     log (fst (Axi3.main n w)) = new ++ log w /\
     syscalls new =
       [EvMmap NULL Axi3.H2F_LW_SIZE [PROT_READ; PROT_WRITE] [MAP_SHARED]
          (Z.of_N fd) Axi3.H2F_LW_BASE (Z.of_N a);
        EvOpen "/dev/mem" [O_RDWR; O_SYNC] (Z.of_N fd)]) /\
  (snd (GpiGpo.main n w) = Running /\
   fds (fst (GpiGpo.main n w)) = Z.of_N fd :: fds w /\
   vmas (fst (GpiGpo.main n w)) =
     window (Z.of_N fd) (Z.of_N a) GpiGpo.FPGA_MANAGER_SIZE
       GpiGpo.FPGA_MANAGER_BASE
     :: vmas w /\
   exists new,
     log (fst (GpiGpo.main n w)) = new ++ log w /\
     syscalls new =
       [EvMmap NULL GpiGpo.FPGA_MANAGER_SIZE [PROT_READ; PROT_WRITE]
          [MAP_SHARED] (Z.of_N fd) GpiGpo.FPGA_MANAGER_BASE (Z.of_N a);
        EvOpen "/dev/mem" [O_RDWR; O_SYNC] (Z.of_N fd)]).
Proof.
  intros Ho Hm.
  destruct (axi3_main_exact n w fd a Ho Hm)
    as (w1 & E1 & Hf1 & Hv1 & _ & _ & Hlog1).
  destruct (gpigpo_main_exact n w fd a Ho Hm)
    as (w2 & E2 & Hf2 & Hv2 & _ & _ & Hlog2).
  rewrite E1, E2. cbn [fst snd]. split.
  - split; [reflexivity|]. split; [exact Hf1|]. split; [exact Hv1|].
    eexists. split; [rewrite Hlog1, app_assoc; reflexivity|].
    rewrite syscalls_app.
    destruct (rows_readings _ 10000 (counted n)
                (axi3_row_readings (Z.of_N a)
                   (word_at (phys w) (Axi3.H2F_LW_BASE + 4))
                   (word_at (phys w) (Axi3.H2F_LW_BASE + 8))
                   (word_at (phys w) (Axi3.H2F_LW_BASE + 12))))
      as (-> & _).
    reflexivity.
  - split; [reflexivity|]. split; [exact Hf2|]. split; [exact Hv2|].
    eexists. split; [rewrite Hlog2, app_assoc; reflexivity|].
    rewrite syscalls_app.
    destruct (rows_readings _ 100000 (counted n)
                (gpigpo_row_readings (Z.of_N a)
                   (word_at (phys w) (GpiGpo.FPGA_MANAGER_BASE + 0))
                   (word_at (phys w) (GpiGpo.FPGA_MANAGER_BASE + 4))
                   (word_at (phys w) (GpiGpo.FPGA_MANAGER_BASE + 20))))
      as (-> & _).
    reflexivity.
Qed.

Lemma window_is_never_released_witness :
  (snd (Axi3.main 5 w_ok) = Running /\
   fds (fst (Axi3.main 5 w_ok)) = 3 :: fds w_ok /\
   vmas (fst (Axi3.main 5 w_ok)) =
     window 3 65536 Axi3.H2F_LW_SIZE Axi3.H2F_LW_BASE :: vmas w_ok /\
   exists new,
     log (fst (Axi3.main 5 w_ok)) = new ++ log w_ok /\
     syscalls new =
       [EvMmap NULL Axi3.H2F_LW_SIZE [PROT_READ; PROT_WRITE] [MAP_SHARED]
          3 Axi3.H2F_LW_BASE 65536;
        EvOpen "/dev/mem" [O_RDWR; O_SYNC] 3]) /\
  (snd (GpiGpo.main 5 w_ok) = Running /\
   fds (fst (GpiGpo.main 5 w_ok)) = 3 :: fds w_ok /\
   vmas (fst (GpiGpo.main 5 w_ok)) =
     window 3 65536 GpiGpo.FPGA_MANAGER_SIZE GpiGpo.FPGA_MANAGER_BASE
     :: vmas w_ok /\
   exists new,
     log (fst (GpiGpo.main 5 w_ok)) = new ++ log w_ok /\
     syscalls new =
       [EvMmap NULL GpiGpo.FPGA_MANAGER_SIZE [PROT_READ; PROT_WRITE]
          [MAP_SHARED] 3 GpiGpo.FPGA_MANAGER_BASE 65536;
        EvOpen "/dev/mem" [O_RDWR; O_SYNC] 3]).
Proof.
  apply (window_is_never_released 5 w_ok 3%N 65536%N); reflexivity.
Defined.

(** X6.  A run of [n] iterations performs exactly [n] register stores
    and asks [usleep] for [n] times 10000 microseconds in axi3_h2f_lw.c,
    [n] times 100000 in gpigpo.c; gpigpo.c, whose loads each stand
    between two calls of [printf], also performs exactly [4 n] loads. *)
Theorem accesses_and_sleep_of_a_run n w fd a :
  hd None (open_answers w) = Some fd ->
  hd None (mmap_answers w) = Some a ->
  exists new1 new2,
    log (fst (Axi3.main n w)) = new1 ++ log w /\
    log (fst (GpiGpo.main n w)) = new2 ++ log w /\
    length (store_events new1) = n /\
    sleep_total new1 = 10000 * Z.of_nat n /\
    length (store_events new2) = n /\
    length (load_events new2) = (4 * n)%nat /\
    sleep_total new2 = 100000 * Z.of_nat n.
Proof.
  intros Ho Hm.
  destruct (axi3_main_exact n w fd a Ho Hm)
    as (w1 & E1 & _ & _ & _ & _ & Hlog1).
  destruct (gpigpo_main_exact n w fd a Ho Hm)
    as (w2 & E2 & _ & _ & _ & _ & Hlog2).
  rewrite E1, E2. cbn [fst].
  eexists. eexists.
  split; [rewrite Hlog1, app_assoc; reflexivity|].
  split; [rewrite Hlog2, app_assoc; reflexivity|].
  rewrite !store_events_app, !load_events_app, !sleep_total_app,
    !length_app.
  destruct (rows_readings _ 10000 (counted n)
              (axi3_row_readings (Z.of_N a)
                 (word_at (phys w) (Axi3.H2F_LW_BASE + 4))
                 (word_at (phys w) (Axi3.H2F_LW_BASE + 8))
                 (word_at (phys w) (Axi3.H2F_LW_BASE + 12))))
    as (_ & -> & _ & ->).
  destruct (rows_readings _ 100000 (counted n)
              (gpigpo_row_readings (Z.of_N a)
                 (word_at (phys w) (GpiGpo.FPGA_MANAGER_BASE + 0))
                 (word_at (phys w) (GpiGpo.FPGA_MANAGER_BASE + 4))
                 (word_at (phys w) (GpiGpo.FPGA_MANAGER_BASE + 20))))
    as (_ & -> & -> & ->).
  rewrite counted_length. cbn. repeat split; lia.
Qed.

Lemma accesses_and_sleep_of_a_run_witness :
  exists new1 new2,
    log (fst (Axi3.main 7 w_ok)) = new1 ++ log w_ok /\
    log (fst (GpiGpo.main 7 w_ok)) = new2 ++ log w_ok /\
    length (store_events new1) = 7%nat /\
    sleep_total new1 = 10000 * Z.of_nat 7 /\
    length (store_events new2) = 7%nat /\
    length (load_events new2) = (4 * 7)%nat /\
    sleep_total new2 = 100000 * Z.of_nat 7.
Proof.
  apply (accesses_and_sleep_of_a_run 7 w_ok 3%N 65536%N); reflexivity.
Defined.

(** ** The counter *)

Lemma iter_next_leds l j :
  0 <= l <= 255 ->
  Nat.iter j next_leds l = (l + Z.of_nat j) mod 256.
Proof.
  intros Hl. induction j as [|j IH].
  - simpl. rewrite Z.add_0_r, Z.mod_small by lia. reflexivity.
  - rewrite Nat.iter_succ, IH.
    rewrite next_leds_mod by (apply Z.mod_pos_bound; lia).
    rewrite Z.add_mod_idemp_l by lia. f_equal. lia.
Qed.

(** X7.  The counter step [if(leds++ == 0xFF) leds = 0;] walks the
    values 0 to 0xFF in a cycle of length exactly 256: from any value in
    that range, [j] steps lead to the value [j] further on modulo 256, so
    256 steps lead back to the start and no smaller positive number of
    steps does. *)
Theorem led_counter_has_period_256 l :
  0 <= l <= 255 ->
  (forall j, Nat.iter j next_leds l = (l + Z.of_nat j) mod 256) /\
  Nat.iter 256 next_leds l = l /\
  (forall j, (0 < j < 256)%nat -> Nat.iter j next_leds l <> l).
Proof.
  intros Hl. split; [intros j; apply iter_next_leds, Hl|]. split.
  - rewrite iter_next_leds by exact Hl.
    change (Z.of_nat 256) with (1 * 256).
    rewrite Z.mod_add by lia. apply Z.mod_small. lia.
  - intros j Hj. rewrite iter_next_leds by exact Hl. intros E.
    destruct (Z.lt_ge_cases (l + Z.of_nat j) 256) as [Hlt|Hge].
    + rewrite Z.mod_small in E by lia. lia.
    + replace (l + Z.of_nat j) with (l + Z.of_nat j - 256 + 1 * 256) in E
        by lia.
      rewrite Z.mod_add in E by lia.
      rewrite Z.mod_small in E by lia. lia.
Qed.

Lemma led_counter_has_period_256_witness :
  (forall j, Nat.iter j next_leds 200 = (200 + Z.of_nat j) mod 256) /\
  Nat.iter 256 next_leds 200 = 200 /\
  (forall j, (0 < j < 256)%nat -> Nat.iter j next_leds 200 <> 200).
Proof.
  apply (led_counter_has_period_256 200). lia.
Defined.
